(** * Record-level NiFi transforms: duplicate classifiers and GeoJSON transform

    A shallow embedding of the three Python processors

      - [extensions/check_duplicates.py]          ([TrinoCheckDuplicates])
      - [extensions/check_duplicates_service.py]  ([CheckDuplicates])
      - [nifi-python-extensions/geojson_transform.py] ([GeoJSONTransform])

    Python values are an inductive type, dictionaries are association lists
    in insertion order, exceptions are the [Raise] case of a result monad,
    and everything the processors call but do not define (codecs, [json],
    [pandas], SQLAlchemy, JDBC objects, [shapely], [pyproj]) is a field of a
    record that the definitions take as an argument. *)

From Stdlib Require Import ZArith DecimalString.
From stdpp Require Import base option list strings.

Local Open Scope string_scope.
Local Open Scope list_scope.
Set Warnings "-register-all".

(** ** Python values *)

(** The values that [json.loads] builds, plus [PyObj] for the objects that
    only a database driver produces (numpy scalars, [Decimal], timestamps).
    A float and a [PyObj] are kept as the text [str()] gives for them, which
    is all the classifiers ever look at. *)
Inductive pyval : Type :=
  | PyNone
  | PyBool (b : bool)
  | PyInt (n : Z)
  | PyFloat (shown : string)
  | PyStr (s : string)
  | PyList (xs : list pyval)
  | PyDict (kvs : list (string * pyval))
  | PyObj (shown : string).

(** A [dict] with string keys, in insertion order. *)
Abbreviation record := (list (string * pyval)).

(** ** Exceptions and the result monad *)

Inductive py_exn : Type :=
  | AttributeError (obj : pyval) (attr : string)
  | TypeError_not_iterable (obj : pyval)
  | TypeError_unhashable (key : pyval)
  | TypeError_not_subscriptable (obj : pyval)
  | TypeError_bad_index (obj : pyval)
  | KeyError (key : string)
  | LibraryError (type_name message : string).

Inductive result (A : Type) : Type :=
  | Ok (a : A)
  | Raise (e : py_exn).
Arguments Ok {A} a.
Arguments Raise {A} e.

Global Instance result_ret : MRet result := λ A a, Ok a.
Global Instance result_bind : MBind result := λ A B f m,
  match m with
  | Ok a => f a
  | Raise e => Raise e
  end.

(** [try: body finally: cleanup] and [with cm: body] (whose [__exit__]
    returns nothing): the cleanup always runs; what it raises replaces the
    outcome of the body. *)
Definition try_finally {A} (body : result A) (cleanup : result unit) : result A :=
  match cleanup with
  | Ok _ => body
  | Raise e => Raise e
  end.

(** ** Builtins *)

(** [d.get(k)] on a dictionary with string keys. *)
Fixpoint dict_lookup (k : string) (kvs : record) : option pyval :=
  match kvs with
  | [] => None
  | (k', v) :: rest => if String.eqb k k' then Some v else dict_lookup k rest
  end.

Definition dict_get (kvs : record) (k : string) : pyval :=
  default PyNone (dict_lookup k kvs).

(** [obj.get(key)] by attribute lookup: only a [dict] has [get]. *)
Definition py_get (obj : pyval) (key : string) : result pyval :=
  match obj with
  | PyDict kvs => Ok (dict_get kvs key)
  | _ => Raise (AttributeError obj "get")
  end.

(** [db_row.get(key)] where [key] is any value: the keys of a database row
    are column labels, so only a string can be found; a list or a
    dictionary cannot be hashed. *)
Definition row_get (db_row : record) (key : pyval) : result pyval :=
  match key with
  | PyStr s => Ok (dict_get db_row s)
  | PyList _ | PyDict _ => Raise (TypeError_unhashable key)
  | _ => Ok PyNone
  end.

(** [obj == s] for a string literal [s]. *)
Definition py_eq_str (obj : pyval) (s : string) : bool :=
  match obj with
  | PyStr s' => String.eqb s' s
  | _ => false
  end.

(** [obj.get(key, default)]. *)
Definition py_get_default (obj : pyval) (key : string) (dflt : pyval) : result pyval :=
  match obj with
  | PyDict kvs => Ok (default dflt (dict_lookup key kvs))
  | _ => Raise (AttributeError obj "get")
  end.

(** [d[k] = v]: an existing key keeps its place. *)
Fixpoint dict_set (kvs : record) (k : string) (v : pyval) : record :=
  match kvs with
  | [] => [(k, v)]
  | (k', v') :: rest =>
      if String.eqb k k' then (k, v) :: rest else (k', v') :: dict_set rest k v
  end.

(** [d.update(other)] for a dictionary [other]. *)
Definition dict_update (kvs other : record) : record :=
  foldl (λ acc kv, dict_set acc kv.1 kv.2) kvs other.

(** [key in s] for strings: [key] occurs in [s]. *)
Definition str_contains (key s : string) : bool :=
  bool_decide (is_Some (String.index 0 key s)).

(** [key in obj] for a string [key]. *)
Definition py_contains (obj : pyval) (key : string) : result bool :=
  match obj with
  | PyDict kvs => Ok (bool_decide (is_Some (dict_lookup key kvs)))
  | PyList xs =>
      Ok (existsb (λ x, py_eq_str x key) xs)
  | PyStr s => Ok (str_contains key s)
  | _ => Raise (TypeError_not_iterable obj)
  end.

(** [obj[key]] for a string [key]. *)
Definition py_getitem (obj : pyval) (key : string) : result pyval :=
  match obj with
  | PyDict kvs =>
      match dict_lookup key kvs with
      | Some v => Ok v
      | None => Raise (KeyError key)
      end
  | PyList _ | PyStr _ => Raise (TypeError_bad_index obj)
  | _ => Raise (TypeError_not_subscriptable obj)
  end.

(** [obj.items()]. *)
Definition py_items (obj : pyval) : result record :=
  match obj with
  | PyDict kvs => Ok kvs
  | _ => Raise (AttributeError obj "items")
  end.

(** [for item in obj]: the elements of a list, the characters of a string,
    the keys of a dictionary. *)
Definition py_iter (obj : pyval) : result (list pyval) :=
  match obj with
  | PyList xs => Ok xs
  | PyStr s => Ok ((λ c, PyStr (String c EmptyString)) <$> String.list_ascii_of_string s)
  | PyDict kvs => Ok ((λ kv, PyStr kv.1) <$> kvs)
  | _ => Raise (TypeError_not_iterable obj)
  end.

(** [isinstance(obj, dict)]. *)
Definition is_dict (obj : pyval) : bool :=
  match obj with
  | PyDict _ => true
  | _ => false
  end.

(** [str(n)] for an [int]. *)
Definition str_int (n : Z) : string := NilZero.string_of_int (Z.to_int n).

(** [str(obj)]; the text of a list or dictionary is left to
    [repr_container]. *)
Definition py_str (repr_container : pyval → string) (obj : pyval) : string :=
  match obj with
  | PyNone => "None"
  | PyBool true => "True"
  | PyBool false => "False"
  | PyInt n => str_int n
  | PyFloat shown => shown
  | PyStr s => s
  | PyList _ | PyDict _ => repr_container obj
  | PyObj shown => shown
  end.

(** ** The host and the libraries *)

(** A flowfile: its content and its attributes. *)
Record FlowFile : Type := {
  getContentsAsBytes : list Byte.byte;
  getAttributes : list (string * string);
}.

(** [FlowFileTransformResult(relationship=..., contents=...)]. *)
Record FlowFileTransformResult : Type := {
  relationship : string;
  contents : string;
}.

(** [Relationship(name, description=...)]. *)
Record Relationship : Type := {
  rel_name : string;
  rel_description : string;
}.

(** [StandardValidators] and [ExpressionLanguageScope], as far as the
    processors use them. *)
Inductive Validator : Type :=
  | NON_EMPTY_VALIDATOR.

Inductive ExpressionLanguageScope : Type :=
  | NONE
  | ENVIRONMENT
  | FLOWFILE_ATTRIBUTES.

(** [PropertyDescriptor(name=..., ...)]; an argument that is not given
    has its default. *)
Record PropertyDescriptor : Type := {
  name : string;
  description : string;
  required : bool;
  sensitive : bool;
  default_value : option string;
  validators : list Validator;
  expression_language_scope : ExpressionLanguageScope;
  controller_service_definition : option string;
}.

(** A property of the processor after
    [context.getProperty(p).evaluateAttributeExpressions(flowfile).getValue()]:
    expression language sees the attributes of the flowfile only. *)
Abbreviation property := (list (string * string) → string).

(** [trino.sqlalchemy.URL(host=, port=, catalog=, user=, password=)]. *)
Record TrinoURL : Type := {
  url_host : string;
  url_port : string;
  url_catalog : string;
  url_user : string;
  url_password : option string;
}.

(** The library functions the processors call. *)
Record Runtime : Type := {
  (* builtins and json *)
  repr_container : pyval → string;
  decode_utf8 : list Byte.byte → result string;
  json_loads : string → result pyval;
  json_dumps : pyval → string;
  (* sqlalchemy *)
  Engine : Type;
  Connection : Type;
  create_engine : TrinoURL → result Engine;
  engine_connect : Engine → result Connection;
  connection_exit : Connection → result unit;
  (* pandas *)
  DataFrame : Type;
  read_sql_query : string → Connection → result DataFrame;
  new_DataFrame : list (list pyval) → list string → result DataFrame;
  to_dict_records : DataFrame → list record;
  (* str.upper, dict.update from an iterable of pairs, json.dumps(ensure_ascii=False) *)
  str_upper : string → string;
  update_from_pairs : record → pyval → result record;
  json_dumps_unicode : pyval → string;
  (* shapely and pyproj *)
  Geometry : Type;
  Transformer : Type;
  shape : pyval → result Geometry;
  from_crs : string → string → result Transformer;
  ops_transform : Transformer → Geometry → result Geometry;
  wkt_dumps : Geometry → result string;
  (* str(e) and traceback.format_exc() for the exception being handled *)
  exn_str : py_exn → string;
  format_exc : py_exn → string;
}.

(** The JDBC objects behind a [DBCPService], seen through their methods.
    A result set is the rows its cursor will yield; [rs.next()] raises when
    the next entry is a [Raise]. *)
Record ResultSetMetaData : Type := {
  getColumnCount : result nat;
  getColumnLabel : nat → result string;
}.

Record ResultSetRow : Type := {
  getObject : nat → result pyval;
}.

Record ResultSet : Type := {
  getMetaData : result ResultSetMetaData;
  rs_cursor : list (result ResultSetRow);
  rs_close : result unit;
}.

Record PreparedStatement : Type := {
  executeQuery : result ResultSet;
  stmt_close : result unit;
}.

Record JdbcConnection : Type := {
  prepareStatement : string → result PreparedStatement;
  conn_close : result unit;
}.

Record DBCPService : Type := {
  getConnection : result JdbcConnection;
}.

(** ** [TrinoCheckDuplicates] (extensions/check_duplicates.py) *)

Module TrinoCheckDuplicates.

(** The evaluated properties of the processor. *)
Record Context : Type := {
  TRINO_HOST : property;
  TRINO_PORT : property;
  TRINO_CATALOG : property;
  TRINO_USER : property;
  TRINO_PASSWORD : list (string * string) → option string;
  SQL_QUERY : property;
  COLUMN_MAPPING : property;
}.

(** Lines 24-90: the declared properties. *)
Module Descriptor.

Definition TRINO_HOST : PropertyDescriptor := {|
  name := "Trino Host";
  description := "URL to Trino server";
  required := true;
  sensitive := false;
  default_value := None;
  validators := [NON_EMPTY_VALIDATOR];
  expression_language_scope := ENVIRONMENT;
  controller_service_definition := None;
|}.

Definition TRINO_PORT : PropertyDescriptor := {|
  name := "Trino Port";
  description := "Port of Trino server";
  required := true;
  sensitive := false;
  default_value := None;
  validators := [NON_EMPTY_VALIDATOR];
  expression_language_scope := ENVIRONMENT;
  controller_service_definition := None;
|}.

Definition TRINO_CATALOG : PropertyDescriptor := {|
  name := "Trino Catalog";
  description := "Catalog of Trino DB";
  required := true;
  sensitive := false;
  default_value := None;
  validators := [NON_EMPTY_VALIDATOR];
  expression_language_scope := ENVIRONMENT;
  controller_service_definition := None;
|}.

Definition TRINO_USER : PropertyDescriptor := {|
  name := "Trino User";
  description := "User of Trino DB";
  required := true;
  sensitive := false;
  default_value := None;
  validators := [NON_EMPTY_VALIDATOR];
  expression_language_scope := ENVIRONMENT;
  controller_service_definition := None;
|}.

Definition TRINO_PASSWORD : PropertyDescriptor := {|
  name := "Trino Password";
  description := "Password of Trino DB";
  required := false;
  sensitive := true;
  default_value := None;
  validators := [NON_EMPTY_VALIDATOR];
  expression_language_scope := ENVIRONMENT;
  controller_service_definition := None;
|}.

Definition SQL_QUERY : PropertyDescriptor := {|
  name := "SQL query";
  description := "Query executed against database";
  required := true;
  sensitive := false;
  default_value := None;
  validators := [NON_EMPTY_VALIDATOR];
  expression_language_scope := FLOWFILE_ATTRIBUTES;
  controller_service_definition := None;
|}.

Definition COLUMN_MAPPING : PropertyDescriptor := {|
  name := "Column mapping";
  description := "JSON mapping between flowfile fields and database columns";
  required := true;
  sensitive := false;
  default_value := Some "{}";
  validators := [NON_EMPTY_VALIDATOR];
  expression_language_scope := FLOWFILE_ATTRIBUTES;
  controller_service_definition := None;
|}.

Definition properties : list PropertyDescriptor :=
  [TRINO_HOST; TRINO_PORT; TRINO_CATALOG; TRINO_USER; TRINO_PASSWORD;
   SQL_QUERY; COLUMN_MAPPING].

End Descriptor.

(** Lines 95-96. *)
Definition getPropertyDescriptors : list PropertyDescriptor := Descriptor.properties.

(** Lines 98-102: a set of two relationships, listed here in the order of
    the source. *)
Definition getRelationships : list Relationship :=
  [ {| rel_name := "success";
       rel_description :=
         "Flowfiles that are not duplicates are routed to this relationship" |};
    {| rel_name := "duplicate";
       rel_description :=
         "Flowfiles that are duplicates are routed to this relationship" |} ].

Section WithRuntime.
Context (rt : Runtime).

(** Lines 120-131: the rows of the query as dictionaries.  [create_engine]
    stands for [create_engine(URL(...))]; the connection is closed on the
    way out of the [with] block. *)
Definition load_db_rows (url : TrinoURL) (sql : string) : result (list record) :=
  engine ← create_engine rt url;
  connection ← engine_connect rt engine;
  df ← try_finally (read_sql_query rt sql connection) (connection_exit rt connection);
  mret (to_dict_records rt df).

(** Lines 140-143: [all(str(item.get(flow_col)) == str(db_row.get(db_col))
    for flow_col, db_col in ...)] over the pairs still to be drawn from
    the generator; it stops at the first unequal pair. *)
Fixpoint all_pairs (item : pyval) (db_row : record) (pairs : record) : result bool :=
  match pairs with
  | [] => Ok true
  | (flow_col, db_col) :: pairs' =>
      a ← py_get item flow_col;
      b ← row_get db_row db_col;
      if String.eqb (py_str (repr_container rt) a) (py_str (repr_container rt) b)
      then all_pairs item db_row pairs'
      else Ok false
  end.

Definition all_match (item : pyval) (db_row : record) (column_mapping : pyval)
  : result bool :=
  pairs ← py_items column_mapping;
  all_pairs item db_row pairs.

(** Lines 139-146: the inner loop, returning [is_duplicate] and the
    list [duplicates]; [break] leaves at the first row that matches. *)
Fixpoint scan_db_rows (item : pyval) (db_rows : list record) (column_mapping : pyval)
    (duplicates : list pyval) : result (bool * list pyval) :=
  match db_rows with
  | [] => Ok (false, duplicates)
  | db_row :: db_rows' =>
      matched ← all_match item db_row column_mapping;
      if matched : bool
      then Ok (true, duplicates ++ [item])
      else scan_db_rows item db_rows' column_mapping duplicates
  end.

(** Lines 136-149: the outer loop over the items still to visit, with
    the two lists built so far. *)
Fixpoint classify_items (items : list pyval) (db_rows : list record)
    (column_mapping : pyval) (non_duplicates duplicates : list pyval)
  : result (list pyval * list pyval) :=
  match items with
  | [] => Ok (non_duplicates, duplicates)
  | item :: items' =>
      '(is_duplicate, duplicates) ← scan_db_rows item db_rows column_mapping duplicates;
      let non_duplicates :=
        if is_duplicate : bool then non_duplicates else non_duplicates ++ [item] in
      classify_items items' db_rows column_mapping non_duplicates duplicates
  end.

(** Lines 133-149: [(non_duplicates, duplicates)] for [flow_data]. *)
Definition classify (flow_data : pyval) (db_rows : list record) (column_mapping : pyval)
  : result (list pyval * list pyval) :=
  items ← py_iter flow_data;
  classify_items items db_rows column_mapping [] [].

(** Lines 151-163: a non-empty list is truthy. *)
Definition select_result (non_duplicates duplicates : list pyval)
  : option FlowFileTransformResult :=
  match non_duplicates, duplicates with
  | _ :: _, _ =>
      Some {| relationship := "success";
              contents := json_dumps rt (PyList non_duplicates) |}
  | [], _ :: _ =>
      Some {| relationship := "duplicate";
              contents := json_dumps rt (PyList duplicates) |}
  | [], [] => None
  end.

(** Lines 106-111: the parsed content, a single object wrapped in a list. *)
Definition read_flow_data (flowfile : FlowFile) : result pyval :=
  let contents_bytes := getContentsAsBytes flowfile in
  contents ← decode_utf8 rt contents_bytes;
  flow_data ← json_loads rt contents;
  mret (if is_dict flow_data then PyList [flow_data] else flow_data).

(** Lines 121-127: the arguments of [URL]. *)
Definition trino_url (context : Context) (flowfile : FlowFile) : TrinoURL :=
  let attrs := getAttributes flowfile in
  {| url_host := TRINO_HOST context attrs;
     url_port := TRINO_PORT context attrs;
     url_catalog := TRINO_CATALOG context attrs;
     url_user := TRINO_USER context attrs;
     url_password := TRINO_PASSWORD context attrs |}.

(** Lines 104-163. [None] is Python's [None]: no result. *)
Definition transform (context : Context) (flowfile : FlowFile)
  : result (option FlowFileTransformResult) :=
  flow_data ← read_flow_data flowfile;
  let sql := SQL_QUERY context (getAttributes flowfile) in
  column_mapping ← json_loads rt (COLUMN_MAPPING context (getAttributes flowfile));
  db_rows ← load_db_rows (trino_url context flowfile) sql;
  '(non_duplicates, duplicates) ← classify flow_data db_rows column_mapping;
  mret (select_result non_duplicates duplicates).

End WithRuntime.

End TrinoCheckDuplicates.

(** ** [CheckDuplicates] (extensions/check_duplicates_service.py) *)

Module CheckDuplicates.

(** The evaluated properties; [DBCP_SERVICE] is the controller service
    that [asControllerService()] returns. *)
Record Context : Type := {
  DBCP_SERVICE : DBCPService;
  SQL_QUERY : property;
  COLUMN_MAPPING : property;
}.

(** Lines 22-50: the declared properties. *)
Module Descriptor.

Definition DBCP_SERVICE : PropertyDescriptor := {|
  name := "Database Connection Pool Service";
  description :=
    "The Controller Service that is used to obtain a connection to the database.";
  required := true;
  sensitive := false;
  default_value := None;
  validators := [];
  expression_language_scope := NONE;
  controller_service_definition := Some "org.apache.nifi.dbcp.DBCPService";
|}.

Definition SQL_QUERY : PropertyDescriptor := {|
  name := "SQL query";
  description := "Query executed against database";
  required := true;
  sensitive := false;
  default_value := None;
  validators := [NON_EMPTY_VALIDATOR];
  expression_language_scope := FLOWFILE_ATTRIBUTES;
  controller_service_definition := None;
|}.

Definition COLUMN_MAPPING : PropertyDescriptor := {|
  name := "Column mapping";
  description := "JSON mapping between flowfile fields and database columns";
  required := true;
  sensitive := false;
  default_value := Some "{}";
  validators := [NON_EMPTY_VALIDATOR];
  expression_language_scope := FLOWFILE_ATTRIBUTES;
  controller_service_definition := None;
|}.

Definition properties : list PropertyDescriptor :=
  [DBCP_SERVICE; SQL_QUERY; COLUMN_MAPPING].

End Descriptor.

(** Lines 55-56. *)
Definition getPropertyDescriptors : list PropertyDescriptor := Descriptor.properties.

(** Lines 58-62. *)
Definition getRelationships : list Relationship :=
  [ {| rel_name := "success";
       rel_description :=
         "Flowfiles that are not duplicates are routed to this relationship" |};
    {| rel_name := "duplicate";
       rel_description :=
         "Flowfiles that are duplicates are routed to this relationship" |} ].

Section WithRuntime.
Context (rt : Runtime).

(** Lines 93-98: [while rs.next(): ...], one list of [col_count]
    objects for each row of the cursor. *)
Fixpoint read_rows (cursor : list (result ResultSetRow)) (col_count : nat)
    (rows : list (list pyval)) : result (list (list pyval)) :=
  match cursor with
  | [] => Ok rows
  | Raise e :: _ => Raise e
  | Ok current :: cursor' =>
      row ← mapM (λ i, getObject current (i + 1)) (seq 0 col_count);
      read_rows cursor' col_count (rows ++ [row])
  end.

(** Lines 88-100: column labels, row values, data frame. *)
Definition read_result_set (rs : ResultSet) : result (DataFrame rt) :=
  meta ← getMetaData rs;
  col_count ← getColumnCount meta;
  columns ← mapM (λ i, getColumnLabel meta (i + 1)) (seq 0 col_count);
  rows ← read_rows (rs_cursor rs) col_count [];
  new_DataFrame rt rows columns.

(** Lines 80-108: the rows of the query as dictionaries; every object
    that was opened is closed on the way out. *)
Definition load_db_rows (dbcp_service : DBCPService) (sql : string)
  : result (list record) :=
  conn ← getConnection dbcp_service;
  df ← try_finally
         (stmt ← prepareStatement conn sql;
          try_finally
            (rs ← executeQuery stmt;
             try_finally (read_result_set rs) (rs_close rs))
            (stmt_close stmt))
         (conn_close conn);
  mret (to_dict_records rt df).

(** Lines 117-120: the [all(...)] over the pairs still to be drawn. *)
Fixpoint all_pairs (item : pyval) (db_row : record) (pairs : record) : result bool :=
  match pairs with
  | [] => Ok true
  | (flow_col, db_col) :: pairs' =>
      a ← py_get item flow_col;
      b ← row_get db_row db_col;
      if String.eqb (py_str (repr_container rt) a) (py_str (repr_container rt) b)
      then all_pairs item db_row pairs'
      else Ok false
  end.

Definition all_match (item : pyval) (db_row : record) (column_mapping : pyval)
  : result bool :=
  pairs ← py_items column_mapping;
  all_pairs item db_row pairs.

(** Lines 116-123: the inner loop with its [break]. *)
Fixpoint scan_db_rows (item : pyval) (db_rows : list record) (column_mapping : pyval)
    (duplicates : list pyval) : result (bool * list pyval) :=
  match db_rows with
  | [] => Ok (false, duplicates)
  | db_row :: db_rows' =>
      matched ← all_match item db_row column_mapping;
      if matched : bool
      then Ok (true, duplicates ++ [item])
      else scan_db_rows item db_rows' column_mapping duplicates
  end.

(** Lines 113-126: the outer loop. *)
Fixpoint classify_items (items : list pyval) (db_rows : list record)
    (column_mapping : pyval) (non_duplicates duplicates : list pyval)
  : result (list pyval * list pyval) :=
  match items with
  | [] => Ok (non_duplicates, duplicates)
  | item :: items' =>
      '(is_duplicate, duplicates) ← scan_db_rows item db_rows column_mapping duplicates;
      let non_duplicates :=
        if is_duplicate : bool then non_duplicates else non_duplicates ++ [item] in
      classify_items items' db_rows column_mapping non_duplicates duplicates
  end.

(** Lines 110-126. *)
Definition classify (flow_data : pyval) (db_rows : list record) (column_mapping : pyval)
  : result (list pyval * list pyval) :=
  items ← py_iter flow_data;
  classify_items items db_rows column_mapping [] [].

(** Lines 128-140. *)
Definition select_result (non_duplicates duplicates : list pyval)
  : option FlowFileTransformResult :=
  match non_duplicates, duplicates with
  | _ :: _, _ =>
      Some {| relationship := "success";
              contents := json_dumps rt (PyList non_duplicates) |}
  | [], _ :: _ =>
      Some {| relationship := "duplicate";
              contents := json_dumps rt (PyList duplicates) |}
  | [], [] => None
  end.

(** Lines 66-71. *)
Definition read_flow_data (flowfile : FlowFile) : result pyval :=
  let contents_bytes := getContentsAsBytes flowfile in
  contents ← decode_utf8 rt contents_bytes;
  flow_data ← json_loads rt contents;
  mret (if is_dict flow_data then PyList [flow_data] else flow_data).

(** Lines 64-140. *)
Definition transform (context : Context) (flowfile : FlowFile)
  : result (option FlowFileTransformResult) :=
  flow_data ← read_flow_data flowfile;
  let sql := SQL_QUERY context (getAttributes flowfile) in
  column_mapping ← json_loads rt (COLUMN_MAPPING context (getAttributes flowfile));
  let dbcp_service := DBCP_SERVICE context in
  db_rows ← load_db_rows dbcp_service sql;
  '(non_duplicates, duplicates) ← classify flow_data db_rows column_mapping;
  mret (select_result non_duplicates duplicates).

End WithRuntime.

End CheckDuplicates.

(** ** [GeoJSONTransform] (nifi-python-extensions/geojson_transform.py) *)

Module GeoJSONTransform.

Record Context : Type := {
  SOURCE_CRS : list (string * string) → option string;
  TARGET_CRS : property;
}.

(** Lines 17-34: the declared properties. *)
Module Descriptor.

Definition SOURCE_CRS : PropertyDescriptor := {|
  name := "Source Coordinate System";
  description := "Source coordinate system (e.g., EPSG:25832, EPSG:4326)";
  required := false;
  sensitive := false;
  default_value := Some "EPSG:4326";
  validators := [];
  expression_language_scope := FLOWFILE_ATTRIBUTES;
  controller_service_definition := None;
|}.

Definition TARGET_CRS : PropertyDescriptor := {|
  name := "Target Coordinate System";
  description := "Target coordinate system (e.g., EPSG:25832, EPSG:4326)";
  required := true;
  sensitive := false;
  default_value := Some "EPSG:25832";
  validators := [NON_EMPTY_VALIDATOR];
  expression_language_scope := FLOWFILE_ATTRIBUTES;
  controller_service_definition := None;
|}.

Definition properties : list PropertyDescriptor := [SOURCE_CRS; TARGET_CRS].

End Descriptor.

(** Lines 39-40. *)
Definition getPropertyDescriptors : list PropertyDescriptor := Descriptor.properties.

Definition newline : string := String (Ascii.ascii_of_nat 10) EmptyString.

Section WithRuntime.
Context (rt : Runtime).

(** [obj.upper()]. *)
Definition py_upper (obj : pyval) : result string :=
  match obj with
  | PyStr s => Ok (str_upper rt s)
  | _ => Raise (AttributeError obj "upper")
  end.

(** Lines 53-56 and 86-89: the source coordinate system, a string once
    [upper()] has been called on it. *)
Definition resolve_source_crs (context : Context) (flowfile : FlowFile) (data : pyval)
  : result string :=
  let source_crs := SOURCE_CRS context (getAttributes flowfile) in
  source_crs ←
    match source_crs with
    | Some (String c s) => Ok (PyStr (String c s))
    | _ =>
        crs ← py_get_default data "crs" (PyDict []);
        props ← py_get_default crs "properties" (PyDict []);
        py_get_default props "name" (PyStr "EPSG:4326")
    end;
  upper ← py_upper source_crs;
  match source_crs with
  | PyStr s => Ok (if str_contains "EPSG" upper then s else "EPSG:4326")
  | _ => Raise (AttributeError source_crs "upper")
  end.

(** Lines 64-66 and 91-93. *)
Definition reproject (source_crs target_crs : string) (geom : Geometry rt)
  : result (Geometry rt) :=
  if String.eqb (str_upper rt source_crs) (str_upper rt target_crs)
  then Ok geom
  else
    transformer ← from_crs rt source_crs target_crs;
    ops_transform rt transformer geom.

(** Lines 60-78: the loop over the features still to visit. *)
Fixpoint flatten_features (features : list pyval) (source_crs target_crs : string)
    (flattened : list pyval) : result (list pyval) :=
  match features with
  | [] => Ok flattened
  | feature :: features' =>
      has_geometry ← py_contains feature "geometry";
      if has_geometry : bool then
        geometry ← py_getitem feature "geometry";
        geom ← shape rt geometry;
        geom ← reproject source_crs target_crs geom;
        geometry ← py_getitem feature "geometry";
        let flat_obj := [("geometry", geometry)] in
        has_properties ← py_contains feature "properties";
        flat_obj ←
          (if has_properties : bool then
             properties ← py_getitem feature "properties";
             match properties with
             | PyDict other => Ok (dict_update flat_obj other)
             | _ => update_from_pairs rt flat_obj properties
             end
           else Ok flat_obj);
        wkt ← wkt_dumps rt geom;
        let flat_obj := dict_set flat_obj "wkt" (PyStr wkt) in
        flatten_features features' source_crs target_crs (flattened ++ [PyDict flat_obj])
      else flatten_features features' source_crs target_crs flattened
  end.

(** Lines 44-98: the body of the [try], giving [result_contents]. *)
Definition transform_body (context : Context) (flowfile : FlowFile) : result string :=
  let target_crs := TARGET_CRS context (getAttributes flowfile) in
  let contents_bytes := getContentsAsBytes flowfile in
  contents ← decode_utf8 rt contents_bytes;
  data ← json_loads rt contents;
  type ← py_get data "type";
  if py_eq_str type "FeatureCollection" then
    features ← py_get_default data "features" (PyList []);
    source_crs ← resolve_source_crs context flowfile data;
    features ← py_iter features;
    flattened ← flatten_features features source_crs target_crs [];
    mret (json_dumps_unicode rt (PyList flattened))
  else
    geometry ← py_get_default data "geometry" data;
    geom ← shape rt geometry;
    source_crs ← resolve_source_crs context flowfile data;
    geom ← reproject source_crs target_crs geom;
    wkt ← wkt_dumps rt geom;
    match data with
    | PyDict kvs => mret (json_dumps_unicode rt (PyDict (dict_set kvs "wkt" (PyStr wkt))))
    | _ => Raise (TypeError_not_subscriptable data)
    end.

(** Line 107. *)
Definition error_details (e : py_exn) : string :=
  "Error transforming GeoJSON to WKT: " +:+ exn_str rt e +:+
  newline +:+ newline +:+ "Traceback:" +:+ newline +:+ format_exc rt e.

(** Lines 42-112: the messages given to [self.logger.error] and what
    the call returns or raises. *)
Definition transform (context : Context) (flowfile : FlowFile)
  : list string * result FlowFileTransformResult :=
  match transform_body context flowfile with
  | Ok result_contents =>
      ([], Ok {| relationship := "success"; contents := result_contents |})
  | Raise e =>
      ([error_details e],
       Ok {| relationship := "failure"; contents := error_details e |})
  end.

End WithRuntime.

End GeoJSONTransform.

(** ** The classification as the specification words it *)

Section Matching.
Context (rt : Runtime).

(** One [(sourceField, targetField)] pair holds between an incoming
    record [r] and a reference record [d]: the two fields have the same
    string representation, a missing field counting as [None]. *)
Definition field_equal (r d : record) (pair : string * string) : Prop :=
  py_str (repr_container rt) (dict_get r pair.1)
  = py_str (repr_container rt) (dict_get d pair.2).

(** [r] matches [d]: every pair of the mapping holds. *)
Definition record_matches (mapping : list (string * string)) (r d : record) : Prop :=
  ∀ sourceField targetField,
    (sourceField, targetField) ∈ mapping → field_equal r d (sourceField, targetField).

(** [r] is a duplicate: some reference record matches it. *)
Definition is_matched (mapping : list (string * string)) (reference : list record)
    (r : record) : Prop :=
  ∃ d, d ∈ reference ∧ record_matches mapping r d.

Global Instance field_equal_dec r d pair : Decision (field_equal r d pair).
Proof. unfold field_equal. apply _. Defined.

Global Instance record_matches_dec mapping r d : Decision (record_matches mapping r d).
Proof.
  refine (cast_if (decide (Forall (field_equal r d) mapping)));
    unfold record_matches; rewrite Forall_forall in *.
  - intros s t. apply f.
  - intros H. apply n. intros [s t]. apply H.
Defined.

Global Instance is_matched_dec mapping reference r :
  Decision (is_matched mapping reference r).
Proof.
  refine (cast_if (decide (Exists (record_matches mapping r) reference)));
    unfold is_matched; rewrite Exists_exists in *; done.
Defined.

End Matching.

(** A field mapping as the parsed JSON object it comes from. *)
Definition mapping_object (mapping : list (string * string)) : pyval :=
  PyDict (prod_map id PyStr <$> mapping).

(** A sequence of records as the parsed JSON array it comes from. *)
Definition record_array (records : list record) : pyval :=
  PyList (PyDict <$> records).

(** ** Features, in words *)

(** [obj] is a JSON object that has the member [key]. *)
Definition has_key (key : string) (obj : pyval) : bool :=
  match obj with
  | PyDict kvs => bool_decide (is_Some (dict_lookup key kvs))
  | _ => false
  end.

(** [obj] is a JSON object whose member [wkt] is a string. *)
Definition has_wkt (obj : pyval) : Prop :=
  ∃ kvs wkt, obj = PyDict kvs ∧ dict_lookup "wkt" kvs = Some (PyStr wkt).

(** ** Reading a result set, in words *)

(** [row] holds the objects of columns [1] to [col_count] of the row the
    cursor is on. *)
Definition row_values (col_count : nat) (current : ResultSetRow) (row : list pyval) : Prop :=
  mapM (λ i, getObject current (i + 1)) (seq 0 col_count) = Ok row.

(** [columns] holds the labels of columns [1] to [col_count]. *)
Definition column_labels (meta : ResultSetMetaData) (col_count : nat)
    (columns : list string) : Prop :=
  mapM (λ i, getColumnLabel meta (i + 1)) (seq 0 col_count) = Ok columns.

(** ** A small runtime to run the processors on concrete inputs

    [demo_runtime] stands in for the libraries: its JSON reader knows a
    handful of documents, its data frames are lists of rows, its geometry
    functions do nothing.  It is used only to evaluate the definitions
    above on examples. *)

Module Demo.

Definition dq : string := String (Ascii.ascii_of_nat 34) EmptyString.

(** [{"id": 5}], [[{"id": 5}]], [[{"id": 5}, {"id": 6}]], [{"id": "id"}]. *)
Definition object_text : string := "{" +:+ dq +:+ "id" +:+ dq +:+ ": 5}".
Definition singleton_text : string := "[" +:+ object_text +:+ "]".
Definition array_text : string :=
  "[" +:+ object_text +:+ ", {" +:+ dq +:+ "id" +:+ dq +:+ ": 6}]".
Definition mapping_text : string :=
  "{" +:+ dq +:+ "id" +:+ dq +:+ ": " +:+ dq +:+ "id" +:+ dq +:+ "}".

(** [{"type": "Point"}] and [[1]]. *)
Definition point_text : string :=
  "{" +:+ dq +:+ "type" +:+ dq +:+ ": " +:+ dq +:+ "Point" +:+ dq +:+ "}".
Definition numbers_text : string := "[1]".

Definition record5 : record := [("id", PyInt 5)].
Definition record6 : record := [("id", PyInt 6)].
Definition row5 : record := [("id", PyStr "5")].

Definition documents : list (string * pyval) :=
  [ (object_text, PyDict record5);
    (singleton_text, PyList [PyDict record5]);
    (array_text, PyList [PyDict record5; PyDict record6]);
    (mapping_text, PyDict [("id", PyStr "id")]);
    (point_text, PyDict [("type", PyStr "Point")]);
    (numbers_text, PyList [PyInt 1]);
    ("{}", PyDict []);
    ("[]", PyList []) ].

Definition loads (text : string) : result pyval :=
  match dict_lookup text documents with
  | Some v => Ok v
  | None => Raise (LibraryError "JSONDecodeError" "Expecting value")
  end.

Fixpoint show (v : pyval) : string :=
  match v with
  | PyNone => "null"
  | PyBool true => "true"
  | PyBool false => "false"
  | PyInt n => str_int n
  | PyFloat shown => shown
  | PyStr s => dq +:+ s +:+ dq
  | PyList xs =>
      "[" +:+ (fix go xs := match xs with
                            | [] => ""
                            | x :: xs' => show x +:+ ";" +:+ go xs'
                            end) xs +:+ "]"
  | PyDict kvs =>
      "{" +:+ (fix go kvs := match kvs with
                             | [] => ""
                             | (k, x) :: kvs' => dq +:+ k +:+ dq +:+ ":" +:+ show x +:+ ";" +:+ go kvs'
                             end) kvs +:+ "}"
  | PyObj shown => shown
  end.

Definition upper_ascii (c : Ascii.ascii) : Ascii.ascii :=
  let n := Ascii.nat_of_ascii c in
  if bool_decide (97 ≤ n ≤ 122)%nat then Ascii.ascii_of_nat (n - 32) else c.

Fixpoint upper (s : string) : string :=
  match s with
  | EmptyString => EmptyString
  | String c s' => String (upper_ascii c) (upper s')
  end.

(** The query returns the one row [{"id": "5"}], unless it is the text
    ["SELECT nothing"], which returns no row, or ["SELECT broken"], which
    fails. *)
Definition query (sql : string) : result (list record) :=
  if String.eqb sql "SELECT broken"
  then Raise (LibraryError "DatabaseError" "query failed")
  else if String.eqb sql "SELECT nothing" then Ok [] else Ok [row5].

Definition demo_runtime : Runtime := {|
  repr_container := show;
  decode_utf8 := λ bs, Ok (String.string_of_list_byte bs);
  json_loads := loads;
  json_dumps := show;
  Engine := unit;
  Connection := unit;
  create_engine := λ _, Ok ();
  engine_connect := λ _, Ok ();
  connection_exit := λ _, Ok ();
  DataFrame := list record;
  read_sql_query := λ sql _, query sql;
  new_DataFrame := λ rows columns, Ok ((λ row, zip columns row) <$> rows);
  to_dict_records := λ df, df;
  str_upper := upper;
  update_from_pairs := λ _ other, Raise (TypeError_not_iterable other);
  json_dumps_unicode := show;
  Geometry := pyval;
  Transformer := unit;
  shape := λ g, match g with
                | PyDict _ => Ok g
                | _ => Raise (LibraryError "GeometryTypeError" "not a geometry")
                end;
  from_crs := λ _ _, Ok ();
  ops_transform := λ _ g, Ok g;
  wkt_dumps := λ _, Ok "POINT (0 0)";
  exn_str := λ e, match e with
                  | LibraryError _ message => message
                  | _ => "error"
                  end;
  format_exc := λ e, match e with
                     | LibraryError type_name message =>
                         "Traceback (most recent call last): " +:+ type_name +:+ ": " +:+ message
                     | _ => "Traceback (most recent call last): error"
                     end;
|}.

Definition flowfile_of (text : string) : FlowFile :=
  {| getContentsAsBytes := String.list_byte_of_string text; getAttributes := [] |}.

Definition trino_context (sql mapping : string) : TrinoCheckDuplicates.Context := {|
  TrinoCheckDuplicates.TRINO_HOST := λ _, "localhost";
  TrinoCheckDuplicates.TRINO_PORT := λ _, "8080";
  TrinoCheckDuplicates.TRINO_CATALOG := λ _, "hive";
  TrinoCheckDuplicates.TRINO_USER := λ _, "nifi";
  TrinoCheckDuplicates.TRINO_PASSWORD := λ _, None;
  TrinoCheckDuplicates.SQL_QUERY := λ _, sql;
  TrinoCheckDuplicates.COLUMN_MAPPING := λ _, mapping;
|}.

(** A pooled connection whose query returns the rows of [query], one
    column labelled [id]. *)
Definition jdbc_row (row : record) : ResultSetRow :=
  {| getObject := λ i, if bool_decide (i = 1%nat) then Ok (dict_get row "id") else
                         Raise (LibraryError "SQLException" "column index out of range") |}.

Definition jdbc_result_set (rows : list record) : ResultSet := {|
  getMetaData := Ok {| getColumnCount := Ok 1%nat; getColumnLabel := λ _, Ok "id" |};
  rs_cursor := (λ row, Ok (jdbc_row row)) <$> rows;
  rs_close := Ok ();
|}.

Definition dbcp_service : DBCPService := {|
  getConnection := Ok {|
    prepareStatement := λ sql, Ok {|
      executeQuery := rows ← query sql; mret (jdbc_result_set rows);
      stmt_close := Ok ();
    |};
    conn_close := Ok ();
  |};
|}.

Definition service_context (sql mapping : string) : CheckDuplicates.Context := {|
  CheckDuplicates.DBCP_SERVICE := dbcp_service;
  CheckDuplicates.SQL_QUERY := λ _, sql;
  CheckDuplicates.COLUMN_MAPPING := λ _, mapping;
|}.

Definition geojson_context : GeoJSONTransform.Context := {|
  GeoJSONTransform.SOURCE_CRS := λ _, None;
  GeoJSONTransform.TARGET_CRS := λ _, "EPSG:25832";
|}.

End Demo.

(** ** More inputs for the small runtime *)

Module DemoMore.

(** [5] and ["ab"] as JSON documents, besides those of [Demo]. *)
Definition string_text : string := Demo.dq +:+ "ab" +:+ Demo.dq.

(** [{"type": "FeatureCollection"}]. *)
Definition collection_text : string :=
  "{" +:+ Demo.dq +:+ "type" +:+ Demo.dq +:+ ": "
      +:+ Demo.dq +:+ "FeatureCollection" +:+ Demo.dq +:+ "}".

Definition documents : list (string * pyval) :=
  [ ("5", PyInt 5);
    (string_text, PyStr "ab");
    (collection_text, PyDict [("type", PyStr "FeatureCollection")]) ].

Definition loads (text : string) : result pyval :=
  match dict_lookup text documents with
  | Some v => Ok v
  | None => Demo.loads text
  end.

(** [Demo.demo_runtime] with one function replaced. *)
Definition with_loads (loads : string → result pyval) : Runtime := {|
  repr_container := repr_container Demo.demo_runtime;
  decode_utf8 := decode_utf8 Demo.demo_runtime;
  json_loads := loads;
  json_dumps := json_dumps Demo.demo_runtime;
  Engine := Engine Demo.demo_runtime;
  Connection := Connection Demo.demo_runtime;
  create_engine := create_engine Demo.demo_runtime;
  engine_connect := engine_connect Demo.demo_runtime;
  connection_exit := connection_exit Demo.demo_runtime;
  DataFrame := DataFrame Demo.demo_runtime;
  read_sql_query := read_sql_query Demo.demo_runtime;
  new_DataFrame := new_DataFrame Demo.demo_runtime;
  to_dict_records := to_dict_records Demo.demo_runtime;
  str_upper := str_upper Demo.demo_runtime;
  update_from_pairs := update_from_pairs Demo.demo_runtime;
  json_dumps_unicode := json_dumps_unicode Demo.demo_runtime;
  Geometry := Geometry Demo.demo_runtime;
  Transformer := Transformer Demo.demo_runtime;
  shape := shape Demo.demo_runtime;
  from_crs := from_crs Demo.demo_runtime;
  ops_transform := ops_transform Demo.demo_runtime;
  wkt_dumps := wkt_dumps Demo.demo_runtime;
  exn_str := exn_str Demo.demo_runtime;
  format_exc := format_exc Demo.demo_runtime;
|}.

Definition with_connection_exit (exit : result unit) : Runtime := {|
  repr_container := repr_container Demo.demo_runtime;
  decode_utf8 := decode_utf8 Demo.demo_runtime;
  json_loads := json_loads Demo.demo_runtime;
  json_dumps := json_dumps Demo.demo_runtime;
  Engine := Engine Demo.demo_runtime;
  Connection := Connection Demo.demo_runtime;
  create_engine := create_engine Demo.demo_runtime;
  engine_connect := engine_connect Demo.demo_runtime;
  connection_exit := λ _, exit;
  DataFrame := DataFrame Demo.demo_runtime;
  read_sql_query := read_sql_query Demo.demo_runtime;
  new_DataFrame := new_DataFrame Demo.demo_runtime;
  to_dict_records := to_dict_records Demo.demo_runtime;
  str_upper := str_upper Demo.demo_runtime;
  update_from_pairs := update_from_pairs Demo.demo_runtime;
  json_dumps_unicode := json_dumps_unicode Demo.demo_runtime;
  Geometry := Geometry Demo.demo_runtime;
  Transformer := Transformer Demo.demo_runtime;
  shape := shape Demo.demo_runtime;
  from_crs := from_crs Demo.demo_runtime;
  ops_transform := ops_transform Demo.demo_runtime;
  wkt_dumps := wkt_dumps Demo.demo_runtime;
  exn_str := exn_str Demo.demo_runtime;
  format_exc := format_exc Demo.demo_runtime;
|}.

Definition runtime : Runtime := with_loads loads.

Definition geojson_configured : GeoJSONTransform.Context := {|
  GeoJSONTransform.SOURCE_CRS := λ _, Some "EPSG:4326";
  GeoJSONTransform.TARGET_CRS := λ _, "EPSG:25832";
|}.

Definition close_failed : py_exn := LibraryError "SQLException" "close failed".

(** A pooled connection that answers like [Demo.dbcp_service], with the
    outcomes of the three [close] calls given. *)
Definition dbcp_service_closing (rs_outcome stmt_outcome conn_outcome : result unit)
  : DBCPService := {|
  getConnection := Ok {|
    prepareStatement := λ sql, Ok {|
      executeQuery :=
        rows ← Demo.query sql;
        mret {| getMetaData := getMetaData (Demo.jdbc_result_set rows);
                rs_cursor := rs_cursor (Demo.jdbc_result_set rows);
                rs_close := rs_outcome |};
      stmt_close := stmt_outcome;
    |};
    conn_close := conn_outcome;
  |};
|}.

End DemoMore.

(** * Properties *)

(** ** The result monad *)

Lemma bind_Ok {A B} (f : A → result B) (a : A) : (Ok a ≫= f) = f a.
Proof. reflexivity. Qed.

Lemma bind_Raise {A B} (f : A → result B) (e : py_exn) : (Raise e ≫= f) = Raise e.
Proof. reflexivity. Qed.

Lemma bind_Ok_inv {A B} (f : A → result B) (m : result A) (b : B) :
  (m ≫= f) = Ok b → ∃ a, m = Ok a ∧ f a = Ok b.
Proof. destruct m as [a|e]; [eauto | discriminate]. Qed.

Lemma try_finally_Raise_r {A} (body : result A) (e : py_exn) :
  try_finally body (Raise e) = Raise e.
Proof. reflexivity. Qed.

Lemma try_finally_Ok_inv {A} (body : result A) (cleanup : result unit) (a : A) :
  try_finally body cleanup = Ok a → body = Ok a.
Proof. destruct cleanup; [done | discriminate]. Qed.

(** ** Matching, case by case *)

#[local] Arguments bool_decide : simpl never.
#[local] Arguments filter : simpl never.

Section MatchingFacts.
Context (rt : Runtime).

Lemma record_matches_nil r d : record_matches rt [] r d.
Proof. intros s t Hin. by apply elem_of_nil in Hin. Qed.

Lemma record_matches_cons s t mapping r d :
  record_matches rt ((s, t) :: mapping) r d
  ↔ field_equal rt r d (s, t) ∧ record_matches rt mapping r d.
Proof.
  unfold record_matches. setoid_rewrite elem_of_cons. split.
  - intros H. split; [apply H; by left | intros ???; apply H; by right].
  - intros [Hhd Htl] s' t' [Heq | Hin]; [by inversion Heq | by apply Htl].
Qed.

Lemma is_matched_nil mapping r : ¬ is_matched rt mapping [] r.
Proof. intros (d & Hin & _). by apply elem_of_nil in Hin. Qed.

Lemma is_matched_cons mapping d reference r :
  is_matched rt mapping (d :: reference) r
  ↔ record_matches rt mapping r d ∨ is_matched rt mapping reference r.
Proof.
  unfold is_matched. setoid_rewrite elem_of_cons. split.
  - intros (d' & [-> | Hin] & Hm); [by left | right; eauto].
  - intros [Hm | (d' & Hin & Hm)]; eauto.
Qed.

End MatchingFacts.

(** ** The loops of [TrinoCheckDuplicates] on records *)

Section TrinoLoops.
Context (rt : Runtime).

Lemma trino_all_pairs_records r d mapping :
  TrinoCheckDuplicates.all_pairs rt (PyDict r) d (prod_map id PyStr <$> mapping)
  = Ok (bool_decide (record_matches rt mapping r d)).
Proof.
  induction mapping as [|[s t] mapping IH]; csimpl.
  - by rewrite bool_decide_eq_true_2 by apply record_matches_nil.
  - destruct (String.eqb_spec (py_str (repr_container rt) (dict_get r s))
                (py_str (repr_container rt) (dict_get d t))) as [Heq | Hne].
    + rewrite IH. f_equal. apply bool_decide_ext.
      rewrite record_matches_cons. unfold field_equal. csimpl. tauto.
    + f_equal. symmetry. apply bool_decide_eq_false_2.
      rewrite record_matches_cons. unfold field_equal. csimpl. tauto.
Qed.

Lemma trino_scan_db_rows_records r reference mapping duplicates :
  TrinoCheckDuplicates.scan_db_rows rt (PyDict r) reference (mapping_object mapping) duplicates
  = Ok (bool_decide (is_matched rt mapping reference r),
        if bool_decide (is_matched rt mapping reference r)
        then duplicates ++ [PyDict r] else duplicates).
Proof.
  induction reference as [|d reference IH]; csimpl.
  - by rewrite bool_decide_eq_false_2 by apply is_matched_nil.
  - unfold TrinoCheckDuplicates.all_match, mapping_object. csimpl.
    rewrite trino_all_pairs_records. csimpl.
    destruct (decide (record_matches rt mapping r d)) as [Hm | Hm].
    + rewrite (bool_decide_eq_true_2 _ Hm).
      by rewrite bool_decide_eq_true_2 by (apply is_matched_cons; by left).
    + rewrite (bool_decide_eq_false_2 _ Hm).
      unfold mapping_object in IH. rewrite IH.
      by rewrite (bool_decide_ext _ _ (is_matched_cons rt mapping d reference r)),
        bool_decide_or, (bool_decide_eq_false_2 _ Hm).
Qed.

Lemma trino_classify_items_records rs reference mapping non_duplicates duplicates :
  TrinoCheckDuplicates.classify_items rt (PyDict <$> rs) reference (mapping_object mapping)
    non_duplicates duplicates
  = Ok (non_duplicates ++ (PyDict <$> filter (λ r, ¬ is_matched rt mapping reference r) rs),
        duplicates ++ (PyDict <$> filter (is_matched rt mapping reference) rs)).
Proof.
  revert non_duplicates duplicates.
  induction rs as [|r rs IH]; intros non_duplicates duplicates; csimpl.
  - by rewrite !app_nil_r.
  - rewrite trino_scan_db_rows_records. csimpl.
    rewrite !filter_cons.
    destruct (decide (is_matched rt mapping reference r)) as [Hm | Hm].
    + rewrite (bool_decide_eq_true_2 _ Hm), IH.
      rewrite decide_False by tauto. csimpl. by rewrite <- app_assoc.
    + rewrite (bool_decide_eq_false_2 _ Hm), IH.
      rewrite decide_True by tauto. csimpl. by rewrite <- app_assoc.
Qed.


Lemma trino_classify_items_no_rows (items : list pyval) column_mapping
    non_duplicates duplicates :
  TrinoCheckDuplicates.classify_items rt items [] column_mapping non_duplicates duplicates
  = Ok (non_duplicates ++ items, duplicates).
Proof.
  revert non_duplicates. induction items as [|item items IH]; intros non_duplicates; csimpl.
  - by rewrite app_nil_r.
  - by rewrite IH, <- app_assoc.
Qed.

Lemma trino_classify_items_no_pairs (items : list pyval) d reference
    non_duplicates duplicates :
  TrinoCheckDuplicates.classify_items rt items (d :: reference) (PyDict [])
    non_duplicates duplicates
  = Ok (non_duplicates, duplicates ++ items).
Proof.
  revert duplicates. induction items as [|item items IH]; intros duplicates; csimpl.
  - by rewrite app_nil_r.
  - by rewrite IH, <- app_assoc.
Qed.

Lemma trino_classify_records rs reference mapping :
  TrinoCheckDuplicates.classify rt (record_array rs) reference (mapping_object mapping)
  = Ok (PyDict <$> filter (λ r, ¬ is_matched rt mapping reference r) rs,
        PyDict <$> filter (is_matched rt mapping reference) rs).
Proof.
  unfold TrinoCheckDuplicates.classify, record_array. csimpl.
  by rewrite trino_classify_items_records.
Qed.

(** What [transform] does once its three inputs have been obtained. *)
Lemma trino_transform_run context flowfile flow_data column_mapping db_rows :
  TrinoCheckDuplicates.read_flow_data rt flowfile = Ok flow_data →
  json_loads rt (TrinoCheckDuplicates.COLUMN_MAPPING context (getAttributes flowfile))
    = Ok column_mapping →
  TrinoCheckDuplicates.load_db_rows rt (TrinoCheckDuplicates.trino_url context flowfile)
    (TrinoCheckDuplicates.SQL_QUERY context (getAttributes flowfile)) = Ok db_rows →
  TrinoCheckDuplicates.transform rt context flowfile
  = res ← TrinoCheckDuplicates.classify rt flow_data db_rows column_mapping;
    mret (TrinoCheckDuplicates.select_result rt res.1 res.2).
Proof.
  intros Hflow Hmap Hrows. unfold TrinoCheckDuplicates.transform.
  rewrite Hflow, bind_Ok, Hmap, bind_Ok, Hrows, bind_Ok.
  by destruct (TrinoCheckDuplicates.classify _ _ _ _) as [[??]|].
Qed.

End TrinoLoops.

(** ** The two variants run the same classifier *)

Section Variants.
Context (rt : Runtime).

Lemma service_classify_eq flow_data db_rows column_mapping :
  CheckDuplicates.classify rt flow_data db_rows column_mapping
  = TrinoCheckDuplicates.classify rt flow_data db_rows column_mapping.
Proof. reflexivity. Qed.

Lemma service_scan_db_rows_eq item db_rows column_mapping duplicates :
  CheckDuplicates.scan_db_rows rt item db_rows column_mapping duplicates
  = TrinoCheckDuplicates.scan_db_rows rt item db_rows column_mapping duplicates.
Proof. reflexivity. Qed.

Lemma service_select_result_eq non_duplicates duplicates :
  CheckDuplicates.select_result rt non_duplicates duplicates
  = TrinoCheckDuplicates.select_result rt non_duplicates duplicates.
Proof. reflexivity. Qed.

Lemma service_read_flow_data_eq flowfile :
  CheckDuplicates.read_flow_data rt flowfile
  = TrinoCheckDuplicates.read_flow_data rt flowfile.
Proof. reflexivity. Qed.

Lemma service_transform_run context flowfile flow_data column_mapping db_rows :
  CheckDuplicates.read_flow_data rt flowfile = Ok flow_data →
  json_loads rt (CheckDuplicates.COLUMN_MAPPING context (getAttributes flowfile))
    = Ok column_mapping →
  CheckDuplicates.load_db_rows rt (CheckDuplicates.DBCP_SERVICE context)
    (CheckDuplicates.SQL_QUERY context (getAttributes flowfile)) = Ok db_rows →
  CheckDuplicates.transform rt context flowfile
  = res ← CheckDuplicates.classify rt flow_data db_rows column_mapping;
    mret (CheckDuplicates.select_result rt res.1 res.2).
Proof.
  intros Hflow Hmap Hrows. unfold CheckDuplicates.transform.
  rewrite Hflow, bind_Ok, Hmap, bind_Ok, Hrows, bind_Ok.
  by destruct (CheckDuplicates.classify _ _ _ _) as [[??]|].
Qed.

End Variants.

(** ** Output selection *)

Section Selection.
Context (rt : Runtime).

Lemma trino_select_result_cases non_duplicates duplicates :
  (non_duplicates ≠ [] →
     TrinoCheckDuplicates.select_result rt non_duplicates duplicates
     = Some {| relationship := "success";
               contents := json_dumps rt (PyList non_duplicates) |})
  ∧ (non_duplicates = [] → duplicates ≠ [] →
     TrinoCheckDuplicates.select_result rt non_duplicates duplicates
     = Some {| relationship := "duplicate";
               contents := json_dumps rt (PyList duplicates) |})
  ∧ (non_duplicates = [] → duplicates = [] →
     TrinoCheckDuplicates.select_result rt non_duplicates duplicates = None).
Proof.
  destruct non_duplicates as [|x xs], duplicates as [|y ys]; repeat split; done.
Qed.

End Selection.

(** C1. Output selection policy of both classifiers: once the content, the
    mapping and the reference rows have been obtained and the records are
    split into [non_duplicates] and [duplicates], a non-empty
    [non_duplicates] is emitted on [success] and [duplicates] is dropped,
    whatever it holds; with [non_duplicates] empty, a non-empty
    [duplicates] is emitted on [duplicate]; with both empty there is no
    result. *)
Theorem output_selection_policy (rt : Runtime) :
  (∀ context flowfile flow_data column_mapping db_rows non_duplicates duplicates,
     TrinoCheckDuplicates.read_flow_data rt flowfile = Ok flow_data →
     json_loads rt (TrinoCheckDuplicates.COLUMN_MAPPING context (getAttributes flowfile))
       = Ok column_mapping →
     TrinoCheckDuplicates.load_db_rows rt (TrinoCheckDuplicates.trino_url context flowfile)
       (TrinoCheckDuplicates.SQL_QUERY context (getAttributes flowfile)) = Ok db_rows →
     TrinoCheckDuplicates.classify rt flow_data db_rows column_mapping
       = Ok (non_duplicates, duplicates) →
     (non_duplicates ≠ [] →
        TrinoCheckDuplicates.transform rt context flowfile
        = Ok (Some {| relationship := "success";
                      contents := json_dumps rt (PyList non_duplicates) |}))
     ∧ (non_duplicates = [] → duplicates ≠ [] →
        TrinoCheckDuplicates.transform rt context flowfile
        = Ok (Some {| relationship := "duplicate";
                      contents := json_dumps rt (PyList duplicates) |}))
     ∧ (non_duplicates = [] → duplicates = [] →
        TrinoCheckDuplicates.transform rt context flowfile = Ok None))
  ∧
  (∀ context flowfile flow_data column_mapping db_rows non_duplicates duplicates,
     CheckDuplicates.read_flow_data rt flowfile = Ok flow_data →
     json_loads rt (CheckDuplicates.COLUMN_MAPPING context (getAttributes flowfile))
       = Ok column_mapping →
     CheckDuplicates.load_db_rows rt (CheckDuplicates.DBCP_SERVICE context)
       (CheckDuplicates.SQL_QUERY context (getAttributes flowfile)) = Ok db_rows →
     CheckDuplicates.classify rt flow_data db_rows column_mapping
       = Ok (non_duplicates, duplicates) →
     (non_duplicates ≠ [] →
        CheckDuplicates.transform rt context flowfile
        = Ok (Some {| relationship := "success";
                      contents := json_dumps rt (PyList non_duplicates) |}))
     ∧ (non_duplicates = [] → duplicates ≠ [] →
        CheckDuplicates.transform rt context flowfile
        = Ok (Some {| relationship := "duplicate";
                      contents := json_dumps rt (PyList duplicates) |}))
     ∧ (non_duplicates = [] → duplicates = [] →
        CheckDuplicates.transform rt context flowfile = Ok None)).
Proof.
  split; intros context flowfile flow_data column_mapping db_rows non_duplicates duplicates
    Hflow Hmap Hrows Hclassify.
  - rewrite (trino_transform_run rt _ _ _ _ _ Hflow Hmap Hrows), Hclassify, bind_Ok.
    destruct (trino_select_result_cases rt non_duplicates duplicates) as (H1 & H2 & H3).
    repeat split; intros; cbn [fst snd]; unfold mret, result_ret; f_equal; auto.
  - rewrite (service_transform_run rt _ _ _ _ _ Hflow Hmap Hrows), Hclassify, bind_Ok.
    rewrite service_select_result_eq.
    destruct (trino_select_result_cases rt non_duplicates duplicates) as (H1 & H2 & H3).
    repeat split; intros; cbn [fst snd]; unfold mret, result_ret; f_equal; auto.
Qed.

(** A mixed batch: [{"id": 5}] is in the reference rows, [{"id": 6}] is
    not; only the latter is emitted, on [success]. *)
Lemma output_selection_policy_witness :
  TrinoCheckDuplicates.transform Demo.demo_runtime
    (Demo.trino_context "SELECT id FROM t" Demo.mapping_text)
    (Demo.flowfile_of Demo.array_text)
  = Ok (Some {| relationship := "success";
                contents := json_dumps Demo.demo_runtime (PyList [PyDict Demo.record6]) |}).
Proof.
  refine (proj1 (proj1 (output_selection_policy Demo.demo_runtime)
            (Demo.trino_context "SELECT id FROM t" Demo.mapping_text)
            (Demo.flowfile_of Demo.array_text)
            (PyList [PyDict Demo.record5; PyDict Demo.record6])
            (PyDict [("id", PyStr "id")])
            [Demo.row5]
            [PyDict Demo.record6] [PyDict Demo.record5] _ _ _ _) _);
    [vm_compute; reflexivity .. | discriminate].
Defined.

(** ** Classification *)

(** C2. A record is put in [duplicates] exactly when some reference record
    agrees with it, as strings, on every pair of the mapping; a field that
    is missing reads as [None] on either side, so two missing fields agree,
    and the integer [5] agrees with the string ["5"].  The inner loop
    appends the record once, at the first reference record that agrees, and
    not at all when none does. *)
Theorem classification_by_matching (rt : Runtime) :
  (∀ rs reference mapping,
     let matched := filter (is_matched rt mapping reference) rs in
     let unmatched := filter (λ r, ¬ is_matched rt mapping reference r) rs in
     TrinoCheckDuplicates.classify rt (record_array rs) reference (mapping_object mapping)
       = Ok (PyDict <$> unmatched, PyDict <$> matched)
     ∧ CheckDuplicates.classify rt (record_array rs) reference (mapping_object mapping)
       = Ok (PyDict <$> unmatched, PyDict <$> matched)
     ∧ (∀ r, r ∈ matched ↔
             r ∈ rs ∧
             ∃ d, d ∈ reference ∧
               ∀ sourceField targetField, (sourceField, targetField) ∈ mapping →
                 py_str (repr_container rt) (dict_get r sourceField)
                 = py_str (repr_container rt) (dict_get d targetField))
     ∧ matched `sublist_of` rs)
  ∧ (∀ r reference mapping duplicates,
       let found := bool_decide (is_matched rt mapping reference r) in
       TrinoCheckDuplicates.scan_db_rows rt (PyDict r) reference (mapping_object mapping)
         duplicates
       = Ok (found, if found then duplicates ++ [PyDict r] else duplicates)
       ∧ CheckDuplicates.scan_db_rows rt (PyDict r) reference (mapping_object mapping)
           duplicates
         = Ok (found, if found then duplicates ++ [PyDict r] else duplicates))
  ∧ (∀ r d sourceField targetField,
       dict_lookup sourceField r = None → dict_lookup targetField d = None →
       dict_get r sourceField = PyNone ∧ dict_get d targetField = PyNone
       ∧ field_equal rt r d (sourceField, targetField))
  ∧ py_str (repr_container rt) (PyInt 5) = py_str (repr_container rt) (PyStr "5")
  ∧ is_matched rt [("id", "id")] [[("id", PyStr "5")]] [("id", PyInt 5)].
Proof.
  split; [| split; [| split; [| split]]].
  - intros rs reference mapping matched unmatched.
    split; [apply trino_classify_records |].
    split; [rewrite service_classify_eq; apply trino_classify_records |].
    split; [| apply sublist_filter].
    intros r. unfold matched. rewrite list_elem_of_filter.
    unfold is_matched, record_matches, field_equal. cbn [fst snd]. tauto.
  - intros r reference mapping duplicates found.
    split; [| rewrite service_scan_db_rows_eq]; apply trino_scan_db_rows_records.
  - intros r d sourceField targetField Hr Hd.
    unfold field_equal, dict_get. cbn [fst snd]. by rewrite Hr, Hd.
  - reflexivity.
  - exists [("id", PyStr "5")]. split; [apply list_elem_of_singleton; reflexivity |].
    intros s t Hin. apply list_elem_of_singleton in Hin. by inversion Hin.
Qed.

(** [{"id": 5}] against the reference row [{"id": "5"}]: matched, and
    appended once. *)
Lemma classification_by_matching_witness :
  TrinoCheckDuplicates.scan_db_rows Demo.demo_runtime (PyDict Demo.record5)
    [Demo.row5; Demo.row5] (mapping_object [("id", "id")]) []
  = Ok (true, [PyDict Demo.record5])
  ∧ field_equal Demo.demo_runtime [] [] ("id", "id").
Proof.
  split.
  - exact (proj1 (proj1 (proj2 (classification_by_matching Demo.demo_runtime))
             Demo.record5 [Demo.row5; Demo.row5] [("id", "id")] [])).
  - refine (proj2 (proj2 (proj1 (proj2 (proj2 (classification_by_matching Demo.demo_runtime)))
             [] [] "id" "id" _ _))); reflexivity.
Defined.

(** C3. With a mapping of at least one pair, the records are split in two
    lists that together hold every incoming record exactly once, each list
    in the order of the incoming sequence. *)
Theorem classification_partitions (rt : Runtime) rs reference mapping :
  mapping ≠ [] →
  ∃ matched unmatched,
    TrinoCheckDuplicates.classify rt (record_array rs) reference (mapping_object mapping)
      = Ok (PyDict <$> unmatched, PyDict <$> matched)
    ∧ CheckDuplicates.classify rt (record_array rs) reference (mapping_object mapping)
      = Ok (PyDict <$> unmatched, PyDict <$> matched)
    ∧ matched `sublist_of` rs
    ∧ unmatched `sublist_of` rs
    ∧ matched ++ unmatched ≡ₚ rs
    ∧ (∀ r, r ∈ rs → (r ∈ matched ∧ r ∉ unmatched) ∨ (r ∈ unmatched ∧ r ∉ matched)).
Proof.
  intros _.
  exists (filter (is_matched rt mapping reference) rs),
         (filter (λ r, ¬ is_matched rt mapping reference r) rs).
  split; [apply trino_classify_records |].
  split; [rewrite service_classify_eq; apply trino_classify_records |].
  split; [apply sublist_filter |].
  split; [apply sublist_filter |].
  split; [apply filter_app_complement |].
  intros r Hin. rewrite !list_elem_of_filter.
  destruct (decide (is_matched rt mapping reference r)); [left | right]; tauto.
Qed.

Lemma classification_partitions_witness :
  ∃ matched unmatched,
    TrinoCheckDuplicates.classify Demo.demo_runtime
      (record_array [Demo.record5; Demo.record6]) [Demo.row5] (mapping_object [("id", "id")])
      = Ok (PyDict <$> unmatched, PyDict <$> matched)
    ∧ matched ++ unmatched ≡ₚ [Demo.record5; Demo.record6].
Proof.
  destruct (classification_partitions Demo.demo_runtime [Demo.record5; Demo.record6]
              [Demo.row5] [("id", "id")]) as (matched & unmatched & H1 & _ & _ & _ & H2 & _).
  - discriminate.
  - by exists matched, unmatched.
Defined.

(** ** Empty mapping, empty reference *)

(** C4, as amended. With an empty mapping every incoming record is
    classified as matched, provided the reference sequence holds at least
    one record: the test of zero conditions succeeds on the first
    reference record. *)
Theorem empty_mapping_all_matched (rt : Runtime) rs reference :
  reference ≠ [] →
  TrinoCheckDuplicates.classify rt (record_array rs) reference (mapping_object [])
    = Ok ([], PyDict <$> rs)
  ∧ CheckDuplicates.classify rt (record_array rs) reference (mapping_object [])
    = Ok ([], PyDict <$> rs).
Proof.
  intros Hne. destruct reference as [|d reference]; [done |].
  assert (TrinoCheckDuplicates.classify rt (record_array rs) (d :: reference)
            (mapping_object []) = Ok ([], PyDict <$> rs)) as H.
  { unfold TrinoCheckDuplicates.classify, record_array, mapping_object. csimpl.
    by rewrite trino_classify_items_no_pairs. }
  split; exact H.
Qed.

Lemma empty_mapping_all_matched_witness :
  TrinoCheckDuplicates.classify Demo.demo_runtime
    (record_array [Demo.record5; Demo.record6]) [Demo.row5] (mapping_object [])
  = Ok ([], [PyDict Demo.record5; PyDict Demo.record6]).
Proof.
  refine (proj1 (empty_mapping_all_matched Demo.demo_runtime
            [Demo.record5; Demo.record6] [Demo.row5] _)).
  discriminate.
Defined.

(** C4 as stated fails when the reference sequence is empty: the inner
    loop has nothing to visit and the record is not matched. *)
Lemma empty_mapping_all_matched_counterexample :
  ¬ ∃ unmatched,
      TrinoCheckDuplicates.classify Demo.demo_runtime
        (record_array [Demo.record5]) [] (mapping_object [])
      = Ok (unmatched, PyDict <$> [Demo.record5]).
Proof. intros [unmatched H]. vm_compute in H. discriminate. Qed.

(** C5, as amended. With an empty mapping and an empty reference sequence
    every incoming record is classified as non-duplicate. *)
Theorem empty_mapping_empty_reference_all_new (rt : Runtime) rs :
  TrinoCheckDuplicates.classify rt (record_array rs) [] (mapping_object [])
    = Ok (PyDict <$> rs, [])
  ∧ CheckDuplicates.classify rt (record_array rs) [] (mapping_object [])
    = Ok (PyDict <$> rs, []).
Proof.
  assert (TrinoCheckDuplicates.classify rt (record_array rs) [] (mapping_object [])
          = Ok (PyDict <$> rs, [])) as H.
  { unfold TrinoCheckDuplicates.classify, record_array. csimpl.
    by rewrite trino_classify_items_no_rows. }
  split; exact H.
Qed.

(** C5 as stated fails as soon as the reference sequence holds a record:
    with an empty mapping the record is then a duplicate. *)
Lemma empty_mapping_all_new_counterexample :
  ¬ ∃ matched,
      TrinoCheckDuplicates.classify Demo.demo_runtime
        (record_array [Demo.record6]) [Demo.row5] (mapping_object [])
      = Ok (PyDict <$> [Demo.record6], matched).
Proof. intros [matched H]. vm_compute in H. discriminate. Qed.

(** C10. When the query returns no row, every incoming record is a
    non-duplicate, whatever the mapping, and a non-empty batch is emitted
    whole on [success]. *)
Theorem empty_reference_all_new (rt : Runtime) :
  (∀ context flowfile rs column_mapping,
     rs ≠ [] →
     TrinoCheckDuplicates.read_flow_data rt flowfile = Ok (record_array rs) →
     json_loads rt (TrinoCheckDuplicates.COLUMN_MAPPING context (getAttributes flowfile))
       = Ok column_mapping →
     TrinoCheckDuplicates.load_db_rows rt (TrinoCheckDuplicates.trino_url context flowfile)
       (TrinoCheckDuplicates.SQL_QUERY context (getAttributes flowfile)) = Ok [] →
     TrinoCheckDuplicates.classify rt (record_array rs) [] column_mapping
       = Ok (PyDict <$> rs, [])
     ∧ TrinoCheckDuplicates.transform rt context flowfile
       = Ok (Some {| relationship := "success";
                     contents := json_dumps rt (record_array rs) |}))
  ∧
  (∀ context flowfile rs column_mapping,
     rs ≠ [] →
     CheckDuplicates.read_flow_data rt flowfile = Ok (record_array rs) →
     json_loads rt (CheckDuplicates.COLUMN_MAPPING context (getAttributes flowfile))
       = Ok column_mapping →
     CheckDuplicates.load_db_rows rt (CheckDuplicates.DBCP_SERVICE context)
       (CheckDuplicates.SQL_QUERY context (getAttributes flowfile)) = Ok [] →
     CheckDuplicates.classify rt (record_array rs) [] column_mapping
       = Ok (PyDict <$> rs, [])
     ∧ CheckDuplicates.transform rt context flowfile
       = Ok (Some {| relationship := "success";
                     contents := json_dumps rt (record_array rs) |})).
Proof.
  assert (Hclassify : ∀ rs column_mapping,
    TrinoCheckDuplicates.classify rt (record_array rs) [] column_mapping
    = Ok (PyDict <$> rs, [])).
  { intros rs column_mapping. unfold TrinoCheckDuplicates.classify, record_array. csimpl.
    by rewrite trino_classify_items_no_rows. }
  split; intros context flowfile rs column_mapping Hne Hflow Hmap Hrows.
  - split; [apply Hclassify |].
    rewrite (trino_transform_run rt _ _ _ _ _ Hflow Hmap Hrows), Hclassify, bind_Ok.
    by destruct rs.
  - split; [apply Hclassify |].
    rewrite (service_transform_run rt _ _ _ _ _ Hflow Hmap Hrows).
    rewrite service_classify_eq, Hclassify, bind_Ok.
    by destruct rs.
Qed.

Lemma empty_reference_all_new_witness :
  CheckDuplicates.transform Demo.demo_runtime
    (Demo.service_context "SELECT nothing" "{}") (Demo.flowfile_of Demo.array_text)
  = Ok (Some {| relationship := "success";
                contents := json_dumps Demo.demo_runtime
                              (record_array [Demo.record5; Demo.record6]) |}).
Proof.
  refine (proj2 (proj2 (empty_reference_all_new Demo.demo_runtime)
            (Demo.service_context "SELECT nothing" "{}") (Demo.flowfile_of Demo.array_text)
            [Demo.record5; Demo.record6] (PyDict []) _ _ _ _));
    [discriminate | vm_compute; reflexivity ..].
Defined.

(** ** The two variants *)

(** C6. The two processors classify and route alike: on the same parsed
    content, reference rows and mapping they build the same two lists and
    select the same result; run on the same flowfile with the same mapping
    text, they return the same thing whenever their two ways of loading the
    reference rows come out the same. *)
Theorem variants_agree (rt : Runtime) :
  (∀ flow_data db_rows column_mapping,
     CheckDuplicates.classify rt flow_data db_rows column_mapping
     = TrinoCheckDuplicates.classify rt flow_data db_rows column_mapping)
  ∧ (∀ non_duplicates duplicates,
       CheckDuplicates.select_result rt non_duplicates duplicates
       = TrinoCheckDuplicates.select_result rt non_duplicates duplicates)
  ∧ (∀ flowfile,
       CheckDuplicates.read_flow_data rt flowfile
       = TrinoCheckDuplicates.read_flow_data rt flowfile)
  ∧ (∀ service_context trino_context flowfile,
       CheckDuplicates.COLUMN_MAPPING service_context (getAttributes flowfile)
       = TrinoCheckDuplicates.COLUMN_MAPPING trino_context (getAttributes flowfile) →
       CheckDuplicates.load_db_rows rt (CheckDuplicates.DBCP_SERVICE service_context)
         (CheckDuplicates.SQL_QUERY service_context (getAttributes flowfile))
       = TrinoCheckDuplicates.load_db_rows rt
           (TrinoCheckDuplicates.trino_url trino_context flowfile)
           (TrinoCheckDuplicates.SQL_QUERY trino_context (getAttributes flowfile)) →
       CheckDuplicates.transform rt service_context flowfile
       = TrinoCheckDuplicates.transform rt trino_context flowfile).
Proof.
  split; [| split; [| split]].
  - intros. apply service_classify_eq.
  - intros. apply service_select_result_eq.
  - intros. apply service_read_flow_data_eq.
  - intros service_context trino_context flowfile Hmap Hrows.
    unfold CheckDuplicates.transform, TrinoCheckDuplicates.transform.
    cbv zeta. rewrite Hmap, Hrows. reflexivity.
Qed.

Lemma variants_agree_witness :
  CheckDuplicates.transform Demo.demo_runtime
    (Demo.service_context "SELECT id FROM t" Demo.mapping_text)
    (Demo.flowfile_of Demo.array_text)
  = TrinoCheckDuplicates.transform Demo.demo_runtime
      (Demo.trino_context "SELECT id FROM t" Demo.mapping_text)
      (Demo.flowfile_of Demo.array_text).
Proof.
  refine (proj2 (proj2 (proj2 (variants_agree Demo.demo_runtime)))
            (Demo.service_context "SELECT id FROM t" Demo.mapping_text)
            (Demo.trino_context "SELECT id FROM t" Demo.mapping_text)
            (Demo.flowfile_of Demo.array_text) _ _);
    vm_compute; reflexivity.
Defined.

(** C9. A flowfile whose content is a single JSON object is read as the
    one-element list holding that object, and is then transformed as a
    flowfile with the same attributes whose content is that array. *)
Theorem single_object_normalized (rt : Runtime) :
  (∀ context flowfile flowfile' r,
     getAttributes flowfile = getAttributes flowfile' →
     (decode_utf8 rt (getContentsAsBytes flowfile) ≫= json_loads rt) = Ok (PyDict r) →
     (decode_utf8 rt (getContentsAsBytes flowfile') ≫= json_loads rt)
       = Ok (record_array [r]) →
     TrinoCheckDuplicates.read_flow_data rt flowfile = Ok (record_array [r])
     ∧ TrinoCheckDuplicates.transform rt context flowfile
       = TrinoCheckDuplicates.transform rt context flowfile')
  ∧
  (∀ context flowfile flowfile' r,
     getAttributes flowfile = getAttributes flowfile' →
     (decode_utf8 rt (getContentsAsBytes flowfile) ≫= json_loads rt) = Ok (PyDict r) →
     (decode_utf8 rt (getContentsAsBytes flowfile') ≫= json_loads rt)
       = Ok (record_array [r]) →
     CheckDuplicates.read_flow_data rt flowfile = Ok (record_array [r])
     ∧ CheckDuplicates.transform rt context flowfile
       = CheckDuplicates.transform rt context flowfile').
Proof.
  assert (Hread : ∀ flowfile flowfile' r,
    (decode_utf8 rt (getContentsAsBytes flowfile) ≫= json_loads rt) = Ok (PyDict r) →
    (decode_utf8 rt (getContentsAsBytes flowfile') ≫= json_loads rt)
      = Ok (record_array [r]) →
    TrinoCheckDuplicates.read_flow_data rt flowfile = Ok (record_array [r])
    ∧ TrinoCheckDuplicates.read_flow_data rt flowfile' = Ok (record_array [r])).
  { intros flowfile flowfile' r H H'. unfold TrinoCheckDuplicates.read_flow_data.
    apply bind_Ok_inv in H as (contents & Hd & Hl).
    apply bind_Ok_inv in H' as (contents' & Hd' & Hl').
    by rewrite Hd, Hd', !bind_Ok, Hl, Hl'. }
  split; intros context flowfile flowfile' r Hattrs H H';
    destruct (Hread flowfile flowfile' r H H') as [Hr Hr']; (split; [exact Hr |]).
  - unfold TrinoCheckDuplicates.transform, TrinoCheckDuplicates.trino_url.
    by rewrite Hr, Hr', Hattrs.
  - unfold CheckDuplicates.transform.
    rewrite service_read_flow_data_eq, Hr.
    rewrite service_read_flow_data_eq, Hr'. by rewrite Hattrs.
Qed.

Lemma single_object_normalized_witness :
  TrinoCheckDuplicates.transform Demo.demo_runtime
    (Demo.trino_context "SELECT id FROM t" Demo.mapping_text)
    (Demo.flowfile_of Demo.object_text)
  = TrinoCheckDuplicates.transform Demo.demo_runtime
      (Demo.trino_context "SELECT id FROM t" Demo.mapping_text)
      (Demo.flowfile_of Demo.singleton_text).
Proof.
  refine (proj2 (proj1 (single_object_normalized Demo.demo_runtime)
            (Demo.trino_context "SELECT id FROM t" Demo.mapping_text)
            (Demo.flowfile_of Demo.object_text) (Demo.flowfile_of Demo.singleton_text)
            Demo.record5 _ _ _));
    vm_compute; reflexivity.
Defined.

(** ** Failures *)

Section Failures.
Context (rt : Runtime).

(** The Trino loader succeeds only if each of its calls does. *)
Lemma trino_load_db_rows_Ok_inv url sql db_rows :
  TrinoCheckDuplicates.load_db_rows rt url sql = Ok db_rows →
  ∃ engine connection df,
    create_engine rt url = Ok engine
    ∧ engine_connect rt engine = Ok connection
    ∧ read_sql_query rt sql connection = Ok df
    ∧ connection_exit rt connection = Ok ()
    ∧ db_rows = to_dict_records rt df.
Proof.
  unfold TrinoCheckDuplicates.load_db_rows. intros H.
  apply bind_Ok_inv in H as (engine & Hengine & H).
  apply bind_Ok_inv in H as (connection & Hconnection & H).
  apply bind_Ok_inv in H as (df & Hdf & H).
  exists engine, connection, df.
  destruct (connection_exit rt connection) as [[]|] eqn:Hexit; [| discriminate].
  apply try_finally_Ok_inv in Hdf. by inversion H.
Qed.

(** So does the pooled-connection loader. *)
Lemma service_load_db_rows_Ok_inv dbcp_service sql db_rows :
  CheckDuplicates.load_db_rows rt dbcp_service sql = Ok db_rows →
  ∃ conn stmt rs df,
    getConnection dbcp_service = Ok conn
    ∧ prepareStatement conn sql = Ok stmt
    ∧ executeQuery stmt = Ok rs
    ∧ CheckDuplicates.read_result_set rt rs = Ok df
    ∧ rs_close rs = Ok () ∧ stmt_close stmt = Ok () ∧ conn_close conn = Ok ()
    ∧ db_rows = to_dict_records rt df.
Proof.
  unfold CheckDuplicates.load_db_rows. intros H.
  apply bind_Ok_inv in H as (conn & Hconn & H).
  apply bind_Ok_inv in H as (df & Hdf & H).
  destruct (conn_close conn) as [[]|] eqn:Hcc; [| discriminate].
  apply try_finally_Ok_inv in Hdf.
  apply bind_Ok_inv in Hdf as (stmt & Hstmt & Hdf).
  destruct (stmt_close stmt) as [[]|] eqn:Hsc; [| discriminate].
  apply try_finally_Ok_inv in Hdf.
  apply bind_Ok_inv in Hdf as (rs & Hrs & Hdf).
  destruct (rs_close rs) as [[]|] eqn:Hrc; [| discriminate].
  apply try_finally_Ok_inv in Hdf.
  exists conn, stmt, rs, df. by inversion H.
Qed.

Lemma trino_select_result_relationship non_duplicates duplicates res :
  TrinoCheckDuplicates.select_result rt non_duplicates duplicates = Some res →
  relationship res = "success" ∨ relationship res = "duplicate".
Proof.
  destruct non_duplicates, duplicates; intros H; inversion H; auto.
Qed.

(** [transform] returns only if every step returned. *)
Lemma trino_transform_Ok_inv context flowfile out :
  TrinoCheckDuplicates.transform rt context flowfile = Ok out →
  ∃ flow_data column_mapping db_rows non_duplicates duplicates,
    TrinoCheckDuplicates.read_flow_data rt flowfile = Ok flow_data
    ∧ json_loads rt (TrinoCheckDuplicates.COLUMN_MAPPING context (getAttributes flowfile))
      = Ok column_mapping
    ∧ TrinoCheckDuplicates.load_db_rows rt (TrinoCheckDuplicates.trino_url context flowfile)
        (TrinoCheckDuplicates.SQL_QUERY context (getAttributes flowfile)) = Ok db_rows
    ∧ TrinoCheckDuplicates.classify rt flow_data db_rows column_mapping
      = Ok (non_duplicates, duplicates)
    ∧ out = TrinoCheckDuplicates.select_result rt non_duplicates duplicates.
Proof.
  unfold TrinoCheckDuplicates.transform. intros H.
  apply bind_Ok_inv in H as (flow_data & Hflow & H).
  apply bind_Ok_inv in H as (column_mapping & Hmap & H).
  apply bind_Ok_inv in H as (db_rows & Hrows & H).
  apply bind_Ok_inv in H as ([non_duplicates duplicates] & Hclassify & H).
  exists flow_data, column_mapping, db_rows, non_duplicates, duplicates.
  by inversion H.
Qed.

Lemma service_transform_Ok_inv context flowfile out :
  CheckDuplicates.transform rt context flowfile = Ok out →
  ∃ flow_data column_mapping db_rows non_duplicates duplicates,
    CheckDuplicates.read_flow_data rt flowfile = Ok flow_data
    ∧ json_loads rt (CheckDuplicates.COLUMN_MAPPING context (getAttributes flowfile))
      = Ok column_mapping
    ∧ CheckDuplicates.load_db_rows rt (CheckDuplicates.DBCP_SERVICE context)
        (CheckDuplicates.SQL_QUERY context (getAttributes flowfile)) = Ok db_rows
    ∧ CheckDuplicates.classify rt flow_data db_rows column_mapping
      = Ok (non_duplicates, duplicates)
    ∧ out = CheckDuplicates.select_result rt non_duplicates duplicates.
Proof.
  unfold CheckDuplicates.transform. intros H.
  apply bind_Ok_inv in H as (flow_data & Hflow & H).
  apply bind_Ok_inv in H as (column_mapping & Hmap & H).
  apply bind_Ok_inv in H as (db_rows & Hrows & H).
  apply bind_Ok_inv in H as ([non_duplicates duplicates] & Hclassify & H).
  exists flow_data, column_mapping, db_rows, non_duplicates, duplicates.
  by inversion H.
Qed.

End Failures.

(** C7. In both classifiers a failure to read the flowfile as JSON, to
    read the mapping as JSON, or to load the reference rows is the outcome
    of the whole call, with the same exception; the call returns only if
    all three succeeded, and what it returns is never on a channel other
    than [success] and [duplicate]. *)
Theorem failures_propagate (rt : Runtime) :
  (∀ context flowfile,
     (∀ e, decode_utf8 rt (getContentsAsBytes flowfile) = Raise e →
           TrinoCheckDuplicates.transform rt context flowfile = Raise e)
     ∧ (∀ contents e,
          decode_utf8 rt (getContentsAsBytes flowfile) = Ok contents →
          json_loads rt contents = Raise e →
          TrinoCheckDuplicates.transform rt context flowfile = Raise e)
     ∧ (∀ flow_data e,
          TrinoCheckDuplicates.read_flow_data rt flowfile = Ok flow_data →
          json_loads rt (TrinoCheckDuplicates.COLUMN_MAPPING context (getAttributes flowfile))
            = Raise e →
          TrinoCheckDuplicates.transform rt context flowfile = Raise e)
     ∧ (∀ flow_data column_mapping e,
          TrinoCheckDuplicates.read_flow_data rt flowfile = Ok flow_data →
          json_loads rt (TrinoCheckDuplicates.COLUMN_MAPPING context (getAttributes flowfile))
            = Ok column_mapping →
          TrinoCheckDuplicates.load_db_rows rt
            (TrinoCheckDuplicates.trino_url context flowfile)
            (TrinoCheckDuplicates.SQL_QUERY context (getAttributes flowfile)) = Raise e →
          TrinoCheckDuplicates.transform rt context flowfile = Raise e)
     ∧ (∀ out,
          TrinoCheckDuplicates.transform rt context flowfile = Ok out →
          ∃ flow_data column_mapping db_rows,
            TrinoCheckDuplicates.read_flow_data rt flowfile = Ok flow_data
            ∧ json_loads rt
                (TrinoCheckDuplicates.COLUMN_MAPPING context (getAttributes flowfile))
              = Ok column_mapping
            ∧ TrinoCheckDuplicates.load_db_rows rt
                (TrinoCheckDuplicates.trino_url context flowfile)
                (TrinoCheckDuplicates.SQL_QUERY context (getAttributes flowfile))
              = Ok db_rows)
     ∧ (∀ res,
          TrinoCheckDuplicates.transform rt context flowfile = Ok (Some res) →
          relationship res = "success" ∨ relationship res = "duplicate"))
  ∧
  (∀ context flowfile,
     (∀ e, decode_utf8 rt (getContentsAsBytes flowfile) = Raise e →
           CheckDuplicates.transform rt context flowfile = Raise e)
     ∧ (∀ contents e,
          decode_utf8 rt (getContentsAsBytes flowfile) = Ok contents →
          json_loads rt contents = Raise e →
          CheckDuplicates.transform rt context flowfile = Raise e)
     ∧ (∀ flow_data e,
          CheckDuplicates.read_flow_data rt flowfile = Ok flow_data →
          json_loads rt (CheckDuplicates.COLUMN_MAPPING context (getAttributes flowfile))
            = Raise e →
          CheckDuplicates.transform rt context flowfile = Raise e)
     ∧ (∀ flow_data column_mapping e,
          CheckDuplicates.read_flow_data rt flowfile = Ok flow_data →
          json_loads rt (CheckDuplicates.COLUMN_MAPPING context (getAttributes flowfile))
            = Ok column_mapping →
          CheckDuplicates.load_db_rows rt (CheckDuplicates.DBCP_SERVICE context)
            (CheckDuplicates.SQL_QUERY context (getAttributes flowfile)) = Raise e →
          CheckDuplicates.transform rt context flowfile = Raise e)
     ∧ (∀ out,
          CheckDuplicates.transform rt context flowfile = Ok out →
          ∃ flow_data column_mapping db_rows,
            CheckDuplicates.read_flow_data rt flowfile = Ok flow_data
            ∧ json_loads rt (CheckDuplicates.COLUMN_MAPPING context (getAttributes flowfile))
              = Ok column_mapping
            ∧ CheckDuplicates.load_db_rows rt (CheckDuplicates.DBCP_SERVICE context)
                (CheckDuplicates.SQL_QUERY context (getAttributes flowfile))
              = Ok db_rows)
     ∧ (∀ res,
          CheckDuplicates.transform rt context flowfile = Ok (Some res) →
          relationship res = "success" ∨ relationship res = "duplicate")).
Proof.
  split; intros context flowfile.
  - split; [| split; [| split; [| split; [| split]]]].
    + intros e H. unfold TrinoCheckDuplicates.transform, TrinoCheckDuplicates.read_flow_data.
      by rewrite H.
    + intros contents e Hd Hl.
      unfold TrinoCheckDuplicates.transform, TrinoCheckDuplicates.read_flow_data.
      by rewrite Hd, !bind_Ok, Hl.
    + intros flow_data e Hflow Hmap. unfold TrinoCheckDuplicates.transform.
      by rewrite Hflow, bind_Ok, Hmap.
    + intros flow_data column_mapping e Hflow Hmap Hrows.
      unfold TrinoCheckDuplicates.transform.
      by rewrite Hflow, bind_Ok, Hmap, bind_Ok, Hrows.
    + intros out H.
      apply trino_transform_Ok_inv in H as (fd & cm & rows & nd & dd & ? & ? & ? & _).
      by exists fd, cm, rows.
    + intros res H.
      apply trino_transform_Ok_inv in H as (fd & cm & rows & nd & dd & _ & _ & _ & _ & H).
      symmetry in H. by apply trino_select_result_relationship in H.
  - split; [| split; [| split; [| split; [| split]]]].
    + intros e H. unfold CheckDuplicates.transform, CheckDuplicates.read_flow_data.
      by rewrite H.
    + intros contents e Hd Hl.
      unfold CheckDuplicates.transform, CheckDuplicates.read_flow_data.
      by rewrite Hd, !bind_Ok, Hl.
    + intros flow_data e Hflow Hmap. unfold CheckDuplicates.transform.
      by rewrite Hflow, bind_Ok, Hmap.
    + intros flow_data column_mapping e Hflow Hmap Hrows.
      unfold CheckDuplicates.transform.
      by rewrite Hflow, bind_Ok, Hmap, bind_Ok, Hrows.
    + intros out H.
      apply service_transform_Ok_inv in H as (fd & cm & rows & nd & dd & ? & ? & ? & _).
      by exists fd, cm, rows.
    + intros res H.
      apply service_transform_Ok_inv in H as (fd & cm & rows & nd & dd & _ & _ & _ & _ & H).
      symmetry in H. rewrite service_select_result_eq in H.
      by apply trino_select_result_relationship in H.
Qed.

(** A flowfile that is not JSON, and a query that fails. *)
Lemma failures_propagate_witness :
  TrinoCheckDuplicates.transform Demo.demo_runtime
    (Demo.trino_context "SELECT id FROM t" Demo.mapping_text) (Demo.flowfile_of "id: 5")
  = Raise (LibraryError "JSONDecodeError" "Expecting value")
  ∧ CheckDuplicates.transform Demo.demo_runtime
      (Demo.service_context "SELECT broken" Demo.mapping_text)
      (Demo.flowfile_of Demo.array_text)
    = Raise (LibraryError "DatabaseError" "query failed").
Proof.
  split.
  - refine (proj1 (proj2 (proj1 (failures_propagate Demo.demo_runtime)
              (Demo.trino_context "SELECT id FROM t" Demo.mapping_text)
              (Demo.flowfile_of "id: 5"))) "id: 5" _ _ _);
      vm_compute; reflexivity.
  - refine (proj1 (proj2 (proj2 (proj2 (proj2 (failures_propagate Demo.demo_runtime)
              (Demo.service_context "SELECT broken" Demo.mapping_text)
              (Demo.flowfile_of Demo.array_text)))))
              (PyList [PyDict Demo.record5; PyDict Demo.record6])
              (PyDict [("id", PyStr "id")]) _ _ _ _);
      vm_compute; reflexivity.
Defined.

(** ** The GeoJSON transform *)

(** C8. Whatever is raised inside the GeoJSON transform (by the decoder,
    the JSON reader, an attribute lookup on content that is not an object,
    or any later step) is caught: the call returns a result on [failure]
    whose content is the diagnostic text, which carries the message of the
    exception and ends with its traceback; the call itself never raises. *)
Theorem geojson_failures_are_routed (rt : Runtime) context flowfile :
  (∃ res, (GeoJSONTransform.transform rt context flowfile).2 = Ok res)
  ∧ (∀ e,
       GeoJSONTransform.transform_body rt context flowfile = Raise e →
       GeoJSONTransform.transform rt context flowfile
       = ([GeoJSONTransform.error_details rt e],
          Ok {| relationship := "failure";
                contents := GeoJSONTransform.error_details rt e |})
       ∧ GeoJSONTransform.error_details rt e
         = "Error transforming GeoJSON to WKT: " +:+ exn_str rt e +:+
           GeoJSONTransform.newline +:+ GeoJSONTransform.newline +:+
           "Traceback:" +:+ GeoJSONTransform.newline +:+ format_exc rt e)
  ∧ (∀ result_contents,
       GeoJSONTransform.transform_body rt context flowfile = Ok result_contents →
       GeoJSONTransform.transform rt context flowfile
       = ([], Ok {| relationship := "success"; contents := result_contents |}))
  ∧ (∀ e, decode_utf8 rt (getContentsAsBytes flowfile) = Raise e →
          GeoJSONTransform.transform_body rt context flowfile = Raise e)
  ∧ (∀ contents e,
       decode_utf8 rt (getContentsAsBytes flowfile) = Ok contents →
       json_loads rt contents = Raise e →
       GeoJSONTransform.transform_body rt context flowfile = Raise e)
  ∧ (∀ contents data,
       decode_utf8 rt (getContentsAsBytes flowfile) = Ok contents →
       json_loads rt contents = Ok data →
       is_dict data = false →
       GeoJSONTransform.transform_body rt context flowfile
       = Raise (AttributeError data "get")).
Proof.
  split; [| split; [| split; [| split; [| split]]]].
  - unfold GeoJSONTransform.transform.
    destruct (GeoJSONTransform.transform_body rt context flowfile); eauto.
  - intros e H. unfold GeoJSONTransform.transform. by rewrite H.
  - intros result_contents H. unfold GeoJSONTransform.transform. by rewrite H.
  - intros e H. unfold GeoJSONTransform.transform_body. by rewrite H.
  - intros contents e Hd Hl. unfold GeoJSONTransform.transform_body.
    by rewrite Hd, bind_Ok, Hl.
  - intros contents data Hd Hl Hdict. unfold GeoJSONTransform.transform_body.
    rewrite Hd, bind_Ok, Hl, bind_Ok. by destruct data.
Qed.

(** A flowfile that is not JSON, and one whose content is an array. *)
Lemma geojson_failures_are_routed_witness :
  (GeoJSONTransform.transform Demo.demo_runtime
     Demo.geojson_context
     (Demo.flowfile_of "id: 5")).2
  = Ok {| relationship := "failure";
          contents := GeoJSONTransform.error_details Demo.demo_runtime
                        (LibraryError "JSONDecodeError" "Expecting value") |}
  ∧ GeoJSONTransform.transform_body Demo.demo_runtime
      Demo.geojson_context
      (Demo.flowfile_of "[]")
    = Raise (AttributeError (PyList []) "get").
Proof.
  split.
  - refine (f_equal snd (proj1 (proj1 (proj2 (geojson_failures_are_routed Demo.demo_runtime
              Demo.geojson_context
              (Demo.flowfile_of "id: 5")))
              (LibraryError "JSONDecodeError" "Expecting value") _))).
    vm_compute; reflexivity.
  - refine (proj2 (proj2 (proj2 (proj2 (proj2 (geojson_failures_are_routed Demo.demo_runtime
              Demo.geojson_context
              (Demo.flowfile_of "[]"))))))
              "[]" (PyList []) _ _ _);
      vm_compute; reflexivity.
Defined.

(** ** Runs on concrete inputs *)

Example str_int_5 : str_int 5 = "5".
Proof. reflexivity. Qed.

Example str_int_0 : str_int 0 = "0".
Proof. reflexivity. Qed.

Example str_int_negative : str_int (-120) = "-120".
Proof. reflexivity. Qed.

(** A batch of one duplicate goes to [duplicate]. *)
Example single_duplicate_is_routed :
  CheckDuplicates.transform Demo.demo_runtime
    (Demo.service_context "SELECT id FROM t" Demo.mapping_text)
    (Demo.flowfile_of Demo.singleton_text)
  = Ok (Some {| relationship := "duplicate";
                contents := json_dumps Demo.demo_runtime (PyList [PyDict Demo.record5]) |}).
Proof. vm_compute. reflexivity. Qed.

(** An empty array gives no result. *)
Example empty_array_no_result :
  TrinoCheckDuplicates.transform Demo.demo_runtime
    (Demo.trino_context "SELECT id FROM t" Demo.mapping_text) (Demo.flowfile_of "[]")
  = Ok None.
Proof. vm_compute. reflexivity. Qed.

(** An array of numbers: [item.get] raises once a reference row and a
    mapping pair are there to compare, and not otherwise. *)
Example number_items_raise :
  TrinoCheckDuplicates.transform Demo.demo_runtime
    (Demo.trino_context "SELECT id FROM t" Demo.mapping_text)
    (Demo.flowfile_of Demo.numbers_text)
  = Raise (AttributeError (PyInt 1) "get").
Proof. vm_compute. reflexivity. Qed.

Example number_items_no_rows :
  TrinoCheckDuplicates.transform Demo.demo_runtime
    (Demo.trino_context "SELECT nothing" Demo.mapping_text)
    (Demo.flowfile_of Demo.numbers_text)
  = Ok (Some {| relationship := "success";
                contents := json_dumps Demo.demo_runtime (PyList [PyInt 1]) |}).
Proof. vm_compute. reflexivity. Qed.

(** The pooled connection yields the same row as the engine. *)
Example service_loads_one_row :
  CheckDuplicates.load_db_rows Demo.demo_runtime Demo.dbcp_service "SELECT id FROM t"
  = Ok [Demo.row5].
Proof. vm_compute. reflexivity. Qed.

(** A point is given its WKT text and sent to [success]. *)
Example geojson_point_succeeds :
  GeoJSONTransform.transform Demo.demo_runtime Demo.geojson_context
    (Demo.flowfile_of Demo.point_text)
  = ([], Ok {| relationship := "success";
               contents := json_dumps_unicode Demo.demo_runtime
                             (PyDict [("type", PyStr "Point");
                                      ("wkt", PyStr "POINT (0 0)")]) |}).
Proof. vm_compute. reflexivity. Qed.

(** * Further properties of the processors *)

(** ** The classification loops on arbitrary items *)

Section ClassifierLoops.
Context (rt : Runtime).

(** The inner loop leaves [duplicates] alone or appends the item once. *)
Lemma trino_scan_db_rows_appends item db_rows column_mapping duplicates found duplicates' :
  TrinoCheckDuplicates.scan_db_rows rt item db_rows column_mapping duplicates
    = Ok (found, duplicates') →
  duplicates' = duplicates ++ (if found : bool then [item] else []).
Proof.
  induction db_rows as [|db_row db_rows IH]; csimpl.
  - intros [= <- <-]. by rewrite app_nil_r.
  - destruct (TrinoCheckDuplicates.all_match rt item db_row column_mapping)
      as [[]|]; csimpl; [by intros [= <- <-] | done | done].
Qed.

(** The inner loop does not look at the list it appends to. *)
Lemma trino_scan_db_rows_acc item db_rows column_mapping duplicates :
  TrinoCheckDuplicates.scan_db_rows rt item db_rows column_mapping duplicates
  = r ← TrinoCheckDuplicates.scan_db_rows rt item db_rows column_mapping [];
    mret (r.1, duplicates ++ r.2).
Proof.
  induction db_rows as [|db_row db_rows IH]; csimpl.
  - by rewrite app_nil_r.
  - by destruct (TrinoCheckDuplicates.all_match rt item db_row column_mapping) as [[]|].
Qed.

Lemma trino_classify_items_acc items db_rows column_mapping non_duplicates duplicates :
  TrinoCheckDuplicates.classify_items rt items db_rows column_mapping
    non_duplicates duplicates
  = r ← TrinoCheckDuplicates.classify_items rt items db_rows column_mapping [] [];
    mret (non_duplicates ++ r.1, duplicates ++ r.2).
Proof.
  revert non_duplicates duplicates.
  induction items as [|item items IH]; intros non_duplicates duplicates; csimpl.
  - by rewrite !app_nil_r.
  - rewrite (trino_scan_db_rows_acc _ _ _ duplicates).
    destruct (TrinoCheckDuplicates.scan_db_rows rt item db_rows column_mapping [])
      as [[found dups]|] eqn:Hscan; csimpl; [| done].
    rewrite IH. symmetry. rewrite IH. symmetry.
    destruct (TrinoCheckDuplicates.classify_items rt items db_rows column_mapping [] [])
      as [[n d]|]; csimpl; [| done].
    destruct found; by rewrite <- !app_assoc.
Qed.

Lemma trino_classify_items_app xs ys db_rows column_mapping non_duplicates duplicates :
  TrinoCheckDuplicates.classify_items rt (xs ++ ys) db_rows column_mapping
    non_duplicates duplicates
  = r ← TrinoCheckDuplicates.classify_items rt xs db_rows column_mapping
          non_duplicates duplicates;
    TrinoCheckDuplicates.classify_items rt ys db_rows column_mapping r.1 r.2.
Proof.
  revert non_duplicates duplicates.
  induction xs as [|x xs IH]; intros non_duplicates duplicates; csimpl; [done |].
  destruct (TrinoCheckDuplicates.scan_db_rows rt x db_rows column_mapping duplicates)
    as [[found dups]|]; csimpl; [apply IH | done].
Qed.

Lemma trino_classify_items_conserve items db_rows column_mapping
    non_duplicates duplicates non_duplicates' duplicates' :
  TrinoCheckDuplicates.classify_items rt items db_rows column_mapping
    non_duplicates duplicates = Ok (non_duplicates', duplicates') →
  ∃ n d,
    non_duplicates' = non_duplicates ++ n ∧ duplicates' = duplicates ++ d
    ∧ n `sublist_of` items ∧ d `sublist_of` items ∧ n ++ d ≡ₚ items.
Proof.
  revert non_duplicates duplicates.
  induction items as [|item items IH]; intros non_duplicates duplicates; csimpl.
  - intros [= <- <-]. exists [], []. by rewrite !app_nil_r.
  - destruct (TrinoCheckDuplicates.scan_db_rows rt item db_rows column_mapping duplicates)
      as [[found dups]|] eqn:Hscan; csimpl; [| done].
    apply trino_scan_db_rows_appends in Hscan as ->.
    intros H. apply IH in H as (n & d & -> & -> & Hn & Hd & Hperm).
    destruct found.
    + exists n, (item :: d). rewrite <- app_assoc.
      repeat split; [by apply sublist_cons | by apply sublist_skip |].
      by rewrite <- Permutation_middle, Hperm.
    + exists (item :: n), d. rewrite app_nil_r, <- app_assoc.
      repeat split; [by apply sublist_skip | by apply sublist_cons |].
      csimpl. by rewrite Hperm.
Qed.

End ClassifierLoops.

(** X1. Whatever the items, the mapping and the reference rows are, a
    classification that returns has put every item in exactly one of the
    two lists, in the order of the batch: nothing is lost, added or
    repeated. *)
Theorem classified_items_are_conserved (rt : Runtime)
    flow_data items db_rows column_mapping non_duplicates duplicates :
  py_iter flow_data = Ok items →
  (TrinoCheckDuplicates.classify rt flow_data db_rows column_mapping
     = Ok (non_duplicates, duplicates)
   ∨ CheckDuplicates.classify rt flow_data db_rows column_mapping
     = Ok (non_duplicates, duplicates)) →
  non_duplicates `sublist_of` items
  ∧ duplicates `sublist_of` items
  ∧ non_duplicates ++ duplicates ≡ₚ items
  ∧ length non_duplicates + length duplicates = length items.
Proof.
  intros Hiter H.
  assert (TrinoCheckDuplicates.classify rt flow_data db_rows column_mapping
          = Ok (non_duplicates, duplicates)) as H' by (by destruct H).
  unfold TrinoCheckDuplicates.classify in H'. rewrite Hiter, bind_Ok in H'.
  apply trino_classify_items_conserve in H' as (n & d & -> & -> & Hn & Hd & Hperm).
  csimpl. repeat split; [done .. |].
  by rewrite <- length_app, Hperm.
Qed.

Lemma classified_items_are_conserved_witness :
  [PyDict Demo.record6] ++ [PyDict Demo.record5]
  ≡ₚ [PyDict Demo.record5; PyDict Demo.record6].
Proof.
  refine (proj1 (proj2 (proj2 (classified_items_are_conserved Demo.demo_runtime
            (PyList [PyDict Demo.record5; PyDict Demo.record6])
            [PyDict Demo.record5; PyDict Demo.record6]
            [Demo.row5] (PyDict [("id", PyStr "id")])
            [PyDict Demo.record6] [PyDict Demo.record5] _ _))));
    [reflexivity | left; vm_compute; reflexivity].
Defined.

(** X2. Classifying a batch made of two batches is classifying the first,
    then the second, and appending the lists pairwise; an exception of the
    first batch comes before one of the second. *)
Theorem classification_of_concatenated_batches (rt : Runtime) xs ys db_rows column_mapping :
  TrinoCheckDuplicates.classify rt (PyList (xs ++ ys)) db_rows column_mapping
  = (r1 ← TrinoCheckDuplicates.classify rt (PyList xs) db_rows column_mapping;
     r2 ← TrinoCheckDuplicates.classify rt (PyList ys) db_rows column_mapping;
     mret (r1.1 ++ r2.1, r1.2 ++ r2.2))
  ∧ CheckDuplicates.classify rt (PyList (xs ++ ys)) db_rows column_mapping
    = (r1 ← CheckDuplicates.classify rt (PyList xs) db_rows column_mapping;
       r2 ← CheckDuplicates.classify rt (PyList ys) db_rows column_mapping;
       mret (r1.1 ++ r2.1, r1.2 ++ r2.2)).
Proof.
  assert (TrinoCheckDuplicates.classify rt (PyList (xs ++ ys)) db_rows column_mapping
    = (r1 ← TrinoCheckDuplicates.classify rt (PyList xs) db_rows column_mapping;
       r2 ← TrinoCheckDuplicates.classify rt (PyList ys) db_rows column_mapping;
       mret (r1.1 ++ r2.1, r1.2 ++ r2.2))) as H.
  { unfold TrinoCheckDuplicates.classify. csimpl.
    rewrite trino_classify_items_app.
    destruct (TrinoCheckDuplicates.classify_items rt xs db_rows column_mapping [] [])
      as [[n1 d1]|]; csimpl; [| done].
    by rewrite trino_classify_items_acc. }
  split; exact H.
Qed.

(** ** What the classification of records depends on *)

Section MatchingOrder.
Context (rt : Runtime).

Lemma is_matched_ext mapping mapping' reference reference' r :
  (∀ d, d ∈ reference ↔ d ∈ reference') →
  (∀ pair, pair ∈ mapping ↔ pair ∈ mapping') →
  is_matched rt mapping reference r ↔ is_matched rt mapping' reference' r.
Proof.
  intros Href Hmap. unfold is_matched, record_matches.
  split; intros (d & Hin & Hm); exists d; (split; [by apply Href |]);
    intros s t Hst; apply Hm; by apply Hmap.
Qed.

Lemma is_matched_more_rows mapping reference extra r :
  is_matched rt mapping reference r → is_matched rt mapping (reference ++ extra) r.
Proof.
  intros (d & Hin & Hm). exists d. split; [| done].
  apply elem_of_app. by left.
Qed.

End MatchingOrder.

(** X3. For records, the classification depends on the reference rows and
    on the mapping only as sets: reordering or repeating reference rows, or
    reordering the pairs of the mapping, changes nothing. *)
Theorem classification_ignores_order (rt : Runtime)
    rs reference reference' mapping mapping' :
  (∀ d, d ∈ reference ↔ d ∈ reference') →
  (∀ pair, pair ∈ mapping ↔ pair ∈ mapping') →
  TrinoCheckDuplicates.classify rt (record_array rs) reference (mapping_object mapping)
  = TrinoCheckDuplicates.classify rt (record_array rs) reference' (mapping_object mapping')
  ∧ CheckDuplicates.classify rt (record_array rs) reference (mapping_object mapping)
    = CheckDuplicates.classify rt (record_array rs) reference' (mapping_object mapping').
Proof.
  intros Href Hmap.
  assert (TrinoCheckDuplicates.classify rt (record_array rs) reference
            (mapping_object mapping)
          = TrinoCheckDuplicates.classify rt (record_array rs) reference'
              (mapping_object mapping')) as H.
  { rewrite !trino_classify_records. do 2 f_equal; f_equal; apply list_filter_iff;
      intros r; by rewrite (is_matched_ext rt _ _ _ _ r Href Hmap). }
  split; exact H.
Qed.

Lemma classification_ignores_order_witness :
  TrinoCheckDuplicates.classify Demo.demo_runtime
    (record_array [Demo.record5; Demo.record6]) [Demo.row5; []]
    (mapping_object [("id", "id"); ("name", "name")])
  = TrinoCheckDuplicates.classify Demo.demo_runtime
      (record_array [Demo.record5; Demo.record6]) [[]; Demo.row5; []]
      (mapping_object [("name", "name"); ("id", "id")]).
Proof.
  refine (proj1 (classification_ignores_order Demo.demo_runtime
            [Demo.record5; Demo.record6] [Demo.row5; []] [[]; Demo.row5; []]
            [("id", "id"); ("name", "name")] [("name", "name"); ("id", "id")] _ _));
    intros x; rewrite !elem_of_cons, !elem_of_nil; tauto.
Defined.

(** X4. More reference rows can only turn non-duplicates into duplicates:
    the duplicates found against [reference] are still found, in the same
    order, against [reference ++ extra], and the non-duplicates against
    the larger sequence were non-duplicates before. *)
Theorem more_reference_rows_more_duplicates (rt : Runtime) rs reference extra mapping :
  ∃ unmatched matched unmatched' matched',
    TrinoCheckDuplicates.classify rt (record_array rs) reference (mapping_object mapping)
      = Ok (PyDict <$> unmatched, PyDict <$> matched)
    ∧ CheckDuplicates.classify rt (record_array rs) reference (mapping_object mapping)
      = Ok (PyDict <$> unmatched, PyDict <$> matched)
    ∧ TrinoCheckDuplicates.classify rt (record_array rs) (reference ++ extra)
        (mapping_object mapping)
      = Ok (PyDict <$> unmatched', PyDict <$> matched')
    ∧ CheckDuplicates.classify rt (record_array rs) (reference ++ extra)
        (mapping_object mapping)
      = Ok (PyDict <$> unmatched', PyDict <$> matched')
    ∧ matched `sublist_of` matched'
    ∧ unmatched' `sublist_of` unmatched.
Proof.
  exists (filter (λ r, ¬ is_matched rt mapping reference r) rs),
         (filter (is_matched rt mapping reference) rs),
         (filter (λ r, ¬ is_matched rt mapping (reference ++ extra) r) rs),
         (filter (is_matched rt mapping (reference ++ extra)) rs).
  split; [apply trino_classify_records |].
  split; [exact (trino_classify_records rt rs reference mapping) |].
  split; [apply trino_classify_records |].
  split; [exact (trino_classify_records rt rs (reference ++ extra) mapping) |].
  split.
  - rewrite (list_filter_iff (is_matched rt mapping reference)
               (λ r, is_matched rt mapping reference r
                     ∧ is_matched rt mapping (reference ++ extra) r)).
    + rewrite <- list_filter_filter. apply sublist_filter.
    + intros r. split; [| tauto]. intros H. split; [done |].
      by apply is_matched_more_rows.
  - rewrite (list_filter_iff (λ r, ¬ is_matched rt mapping (reference ++ extra) r)
               (λ r, ¬ is_matched rt mapping (reference ++ extra) r
                     ∧ ¬ is_matched rt mapping reference r)).
    + rewrite <- list_filter_filter. apply sublist_filter.
    + intros r. split; [| tauto]. intros H. split; [done |].
      intros H'. apply H. by apply is_matched_more_rows.
Qed.

Lemma filter_nothing {A} (P : A → Prop) `{!∀ x, Decision (P x)} (l : list A) :
  (∀ x, ¬ P x) → filter P l = [].
Proof.
  intros Hnone. induction l as [|x l IH]; [done |].
  by rewrite filter_cons_False.
Qed.

(** X5. Classifying again what was classified gives the same verdicts: the
    non-duplicates of a batch, sent again against the same reference rows
    and mapping, are all non-duplicates, and its duplicates are all
    duplicates. *)
Theorem classification_is_stable (rt : Runtime) rs reference mapping :
  let matched := filter (is_matched rt mapping reference) rs in
  let unmatched := filter (λ r, ¬ is_matched rt mapping reference r) rs in
  TrinoCheckDuplicates.classify rt (record_array rs) reference (mapping_object mapping)
    = Ok (PyDict <$> unmatched, PyDict <$> matched)
  ∧ TrinoCheckDuplicates.classify rt (record_array unmatched) reference
      (mapping_object mapping) = Ok (PyDict <$> unmatched, [])
  ∧ TrinoCheckDuplicates.classify rt (record_array matched) reference
      (mapping_object mapping) = Ok ([], PyDict <$> matched)
  ∧ CheckDuplicates.classify rt (record_array unmatched) reference
      (mapping_object mapping) = Ok (PyDict <$> unmatched, [])
  ∧ CheckDuplicates.classify rt (record_array matched) reference
      (mapping_object mapping) = Ok ([], PyDict <$> matched).
Proof.
  intros matched unmatched.
  assert (filter (is_matched rt mapping reference) unmatched = []) as Hmu.
  { unfold unmatched. rewrite list_filter_filter.
    apply filter_nothing. tauto. }
  assert (filter (λ r, ¬ is_matched rt mapping reference r) unmatched = unmatched) as Huu.
  { unfold unmatched. rewrite list_filter_filter. apply list_filter_iff. tauto. }
  assert (filter (is_matched rt mapping reference) matched = matched) as Hmm.
  { unfold matched. rewrite list_filter_filter. apply list_filter_iff. tauto. }
  assert (filter (λ r, ¬ is_matched rt mapping reference r) matched = []) as Hum.
  { unfold matched. rewrite list_filter_filter.
    apply filter_nothing. tauto. }
  assert (TrinoCheckDuplicates.classify rt (record_array unmatched) reference
            (mapping_object mapping) = Ok (PyDict <$> unmatched, [])) as H1
    by (by rewrite trino_classify_records, Hmu, Huu).
  assert (TrinoCheckDuplicates.classify rt (record_array matched) reference
            (mapping_object mapping) = Ok ([], PyDict <$> matched)) as H2
    by (by rewrite trino_classify_records, Hmm, Hum).
  split; [apply trino_classify_records |].
  split; [exact H1 |]. split; [exact H2 |]. split; [exact H1 | exact H2].
Qed.

(** ** Content and mappings of the wrong shape *)

(** X6. An item of the batch that is not a JSON object stops the
    classification with [AttributeError] when it is reached, provided
    there is a reference row and a mapping pair to compare; with no
    reference row, or with an empty mapping, it is classified like any
    other item. *)
Theorem non_object_item_raises (rt : Runtime) rs item rest d reference s t mapping :
  is_dict item = false →
  TrinoCheckDuplicates.classify rt (PyList ((PyDict <$> rs) ++ item :: rest))
    (d :: reference) (mapping_object ((s, t) :: mapping))
  = Raise (AttributeError item "get")
  ∧ CheckDuplicates.classify rt (PyList ((PyDict <$> rs) ++ item :: rest))
      (d :: reference) (mapping_object ((s, t) :: mapping))
    = Raise (AttributeError item "get")
  ∧ TrinoCheckDuplicates.classify rt (PyList ((PyDict <$> rs) ++ item :: rest))
      [] (mapping_object ((s, t) :: mapping))
    = Ok ((PyDict <$> rs) ++ item :: rest, [])
  ∧ TrinoCheckDuplicates.classify rt (PyList ((PyDict <$> rs) ++ item :: rest))
      (d :: reference) (mapping_object [])
    = Ok ([], (PyDict <$> rs) ++ item :: rest).
Proof.
  intros Hitem.
  assert (TrinoCheckDuplicates.classify rt (PyList ((PyDict <$> rs) ++ item :: rest))
            (d :: reference) (mapping_object ((s, t) :: mapping))
          = Raise (AttributeError item "get")) as H.
  { unfold TrinoCheckDuplicates.classify. csimpl.
    rewrite trino_classify_items_app, trino_classify_items_records, bind_Ok.
    unfold mapping_object. csimpl. unfold TrinoCheckDuplicates.all_match. csimpl.
    by destruct item. }
  split; [exact H |]. split; [exact H |]. split.
  - unfold TrinoCheckDuplicates.classify. csimpl.
    by rewrite trino_classify_items_no_rows.
  - unfold TrinoCheckDuplicates.classify, mapping_object. csimpl.
    by rewrite trino_classify_items_no_pairs.
Qed.

Lemma non_object_item_raises_witness :
  TrinoCheckDuplicates.classify Demo.demo_runtime
    (PyList ((PyDict <$> [Demo.record6]) ++ PyInt 1 :: [])) (Demo.row5 :: [])
    (mapping_object (("id", "id") :: []))
  = Raise (AttributeError (PyInt 1) "get").
Proof.
  refine (proj1 (non_object_item_raises Demo.demo_runtime [Demo.record6] (PyInt 1) []
            Demo.row5 [] "id" "id" [] _)).
  reflexivity.
Defined.

(** X7. A mapping that is valid JSON but not an object is noticed only when
    there is something to compare: with at least one item and one
    reference row the classification raises [AttributeError] for [items];
    with no reference row every item is a non-duplicate, and an empty
    batch gives two empty lists. *)
Theorem non_object_mapping (rt : Runtime) column_mapping item items d db_rows :
  is_dict column_mapping = false →
  TrinoCheckDuplicates.classify rt (PyList (item :: items)) (d :: db_rows) column_mapping
  = Raise (AttributeError column_mapping "items")
  ∧ CheckDuplicates.classify rt (PyList (item :: items)) (d :: db_rows) column_mapping
    = Raise (AttributeError column_mapping "items")
  ∧ TrinoCheckDuplicates.classify rt (PyList (item :: items)) [] column_mapping
    = Ok (item :: items, [])
  ∧ TrinoCheckDuplicates.classify rt (PyList []) (d :: db_rows) column_mapping
    = Ok ([], []).
Proof.
  intros Hmap.
  assert (TrinoCheckDuplicates.classify rt (PyList (item :: items)) (d :: db_rows)
            column_mapping = Raise (AttributeError column_mapping "items")) as H.
  { unfold TrinoCheckDuplicates.classify. csimpl.
    unfold TrinoCheckDuplicates.all_match. by destruct column_mapping. }
  split; [exact H |]. split; [exact H |]. split; [| done].
  unfold TrinoCheckDuplicates.classify. csimpl.
  by rewrite trino_classify_items_no_rows.
Qed.

Lemma non_object_mapping_witness :
  TrinoCheckDuplicates.classify Demo.demo_runtime (PyList (PyDict Demo.record5 :: []))
    (Demo.row5 :: []) (PyList [])
  = Raise (AttributeError (PyList []) "items").
Proof.
  refine (proj1 (non_object_mapping Demo.demo_runtime (PyList []) (PyDict Demo.record5) []
            Demo.row5 [] _)).
  reflexivity.
Defined.



(** ** Defaults and declarations *)

(** X9. With the column mapping left at its default, the empty object, no
    field is compared: a non-empty batch goes whole to [duplicate] when the
    query returns at least one row, and whole to [success] when it returns
    none. *)
Theorem default_mapping_routes_by_rows (rt : Runtime) :
  json_loads rt "{}" = Ok (PyDict []) →
  (∀ context flowfile flow_data item items db_rows,
     Some (TrinoCheckDuplicates.COLUMN_MAPPING context (getAttributes flowfile))
       = default_value TrinoCheckDuplicates.Descriptor.COLUMN_MAPPING →
     TrinoCheckDuplicates.read_flow_data rt flowfile = Ok flow_data →
     py_iter flow_data = Ok (item :: items) →
     TrinoCheckDuplicates.load_db_rows rt (TrinoCheckDuplicates.trino_url context flowfile)
       (TrinoCheckDuplicates.SQL_QUERY context (getAttributes flowfile)) = Ok db_rows →
     TrinoCheckDuplicates.transform rt context flowfile
     = Ok (Some {| relationship := match db_rows with [] => "success" | _ => "duplicate" end;
                   contents := json_dumps rt (PyList (item :: items)) |}))
  ∧ (∀ context flowfile flow_data item items db_rows,
       Some (CheckDuplicates.COLUMN_MAPPING context (getAttributes flowfile))
         = default_value CheckDuplicates.Descriptor.COLUMN_MAPPING →
       CheckDuplicates.read_flow_data rt flowfile = Ok flow_data →
       py_iter flow_data = Ok (item :: items) →
       CheckDuplicates.load_db_rows rt (CheckDuplicates.DBCP_SERVICE context)
         (CheckDuplicates.SQL_QUERY context (getAttributes flowfile)) = Ok db_rows →
       CheckDuplicates.transform rt context flowfile
       = Ok (Some {| relationship := match db_rows with [] => "success" | _ => "duplicate" end;
                     contents := json_dumps rt (PyList (item :: items)) |})).
Proof.
  intros Hloads.
  assert (Hclassify : ∀ flow_data item items db_rows,
    py_iter flow_data = Ok (item :: items) →
    TrinoCheckDuplicates.classify rt flow_data db_rows (PyDict [])
    = Ok (match db_rows with [] => (item :: items, []) | _ => ([], item :: items) end)).
  { intros flow_data item items db_rows Hiter. unfold TrinoCheckDuplicates.classify.
    rewrite Hiter, bind_Ok. destruct db_rows as [|d db_rows].
    - by rewrite trino_classify_items_no_rows.
    - by rewrite trino_classify_items_no_pairs. }
  split; intros context flowfile flow_data item items db_rows Hdefault Hflow Hiter Hrows;
    injection Hdefault as Hdefault.
  - rewrite <- Hdefault in Hloads.
    rewrite (trino_transform_run rt _ _ _ _ _ Hflow Hloads Hrows).
    rewrite (Hclassify _ _ _ _ Hiter). by destruct db_rows.
  - rewrite <- Hdefault in Hloads.
    rewrite (service_transform_run rt _ _ _ _ _ Hflow Hloads Hrows).
    rewrite service_classify_eq, (Hclassify _ _ _ _ Hiter). by destruct db_rows.
Qed.

Lemma default_mapping_routes_by_rows_witness :
  CheckDuplicates.transform Demo.demo_runtime
    (Demo.service_context "SELECT id FROM t" "{}") (Demo.flowfile_of Demo.array_text)
  = Ok (Some {| relationship := "duplicate";
                contents := json_dumps Demo.demo_runtime
                              (PyList [PyDict Demo.record5; PyDict Demo.record6]) |}).
Proof.
  refine (proj2 (default_mapping_routes_by_rows Demo.demo_runtime _)
            (Demo.service_context "SELECT id FROM t" "{}") (Demo.flowfile_of Demo.array_text)
            (PyList [PyDict Demo.record5; PyDict Demo.record6])
            (PyDict Demo.record5) [PyDict Demo.record6] [Demo.row5] _ _ _ _);
    vm_compute; reflexivity.
Defined.

(** X10. Every result of the two classifiers is on a relationship that
    [getRelationships] declares. *)
Theorem results_use_declared_relationships (rt : Runtime) :
  (∀ context flowfile res,
     TrinoCheckDuplicates.transform rt context flowfile = Ok (Some res) →
     relationship res ∈ rel_name <$> TrinoCheckDuplicates.getRelationships)
  ∧ (∀ context flowfile res,
       CheckDuplicates.transform rt context flowfile = Ok (Some res) →
       relationship res ∈ rel_name <$> CheckDuplicates.getRelationships).
Proof.
  split; intros context flowfile res H.
  - apply trino_transform_Ok_inv in H as (fd & cm & rows & nd & dd & _ & _ & _ & _ & H).
    symmetry in H. apply trino_select_result_relationship in H as [-> | ->].
    + apply list_elem_of_here.
    + apply list_elem_of_further, list_elem_of_here.
  - apply service_transform_Ok_inv in H as (fd & cm & rows & nd & dd & _ & _ & _ & _ & H).
    symmetry in H. rewrite service_select_result_eq in H.
    apply trino_select_result_relationship in H as [-> | ->].
    + apply list_elem_of_here.
    + apply list_elem_of_further, list_elem_of_here.
Qed.

Lemma results_use_declared_relationships_witness :
  "success" ∈ rel_name <$> TrinoCheckDuplicates.getRelationships.
Proof.
  refine (proj1 (results_use_declared_relationships Demo.demo_runtime)
            (Demo.trino_context "SELECT id FROM t" Demo.mapping_text)
            (Demo.flowfile_of Demo.array_text)
            {| relationship := "success";
               contents := json_dumps Demo.demo_runtime (PyList [PyDict Demo.record6]) |} _).
  vm_compute. reflexivity.
Defined.

(** ** Comparison as strings *)

(** X11. The comparison cannot tell a missing field from the text [None]:
    a record whose source field holds the string ["None"] is a duplicate of
    a reference row that lacks the target column, and a record that lacks
    the field is a duplicate of a row whose column holds that string. *)
Theorem text_None_matches_missing (rt : Runtime) r d sourceField targetField :
  (dict_lookup sourceField r = Some (PyStr "None") ∧ dict_lookup targetField d = None)
  ∨ (dict_lookup sourceField r = None ∧ dict_lookup targetField d = Some (PyStr "None")) →
  TrinoCheckDuplicates.classify rt (record_array [r]) [d]
    (mapping_object [(sourceField, targetField)]) = Ok ([], [PyDict r])
  ∧ CheckDuplicates.classify rt (record_array [r]) [d]
      (mapping_object [(sourceField, targetField)]) = Ok ([], [PyDict r]).
Proof.
  intros H.
  assert (TrinoCheckDuplicates.classify rt (record_array [r]) [d]
            (mapping_object [(sourceField, targetField)]) = Ok ([], [PyDict r])) as H'.
  { unfold TrinoCheckDuplicates.classify, record_array, mapping_object. csimpl.
    unfold TrinoCheckDuplicates.all_match. csimpl. unfold dict_get.
    destruct H as [[-> ->] | [-> ->]]; done. }
  split; exact H'.
Qed.

Lemma text_None_matches_missing_witness :
  TrinoCheckDuplicates.classify Demo.demo_runtime
    (record_array [[("id", PyStr "None")]]) [Demo.row5] (mapping_object [("id", "name")])
  = Ok ([], [PyDict [("id", PyStr "None")]]).
Proof.
  refine (proj1 (text_None_matches_missing Demo.demo_runtime
            [("id", PyStr "None")] Demo.row5 "id" "name" _)).
  left. split; reflexivity.
Defined.

(** X12. A mapping whose target is not a string: a number, a boolean or
    null is looked up as a column that no row has, so the source field is
    compared with the text [None]; a list or an object raises [TypeError],
    but only if every earlier pair of the mapping was equal, since the
    test stops at the first unequal pair. *)
Theorem non_string_mapping_target (rt : Runtime) r d mapping sourceField target rest :
  (∀ s, target ≠ PyStr s) →
  TrinoCheckDuplicates.all_match rt (PyDict r) d
    (PyDict ((prod_map id PyStr <$> mapping) ++ (sourceField, target) :: rest))
  = (if bool_decide (record_matches rt mapping r d)
     then match target with
          | PyList _ | PyDict _ => Raise (TypeError_unhashable target)
          | _ =>
              if bool_decide (py_str (repr_container rt) (dict_get r sourceField) = "None")
              then TrinoCheckDuplicates.all_pairs rt (PyDict r) d rest
              else Ok false
          end
     else Ok false)
  ∧ CheckDuplicates.all_match rt (PyDict r) d
      (PyDict ((prod_map id PyStr <$> mapping) ++ (sourceField, target) :: rest))
    = (if bool_decide (record_matches rt mapping r d)
       then match target with
            | PyList _ | PyDict _ => Raise (TypeError_unhashable target)
            | _ =>
                if bool_decide (py_str (repr_container rt) (dict_get r sourceField) = "None")
                then CheckDuplicates.all_pairs rt (PyDict r) d rest
                else Ok false
            end
       else Ok false).
Proof.
  intros Htarget.
  assert (Hpairs : ∀ pairs,
    TrinoCheckDuplicates.all_pairs rt (PyDict r) d ((prod_map id PyStr <$> mapping) ++ pairs)
    = if bool_decide (record_matches rt mapping r d)
      then TrinoCheckDuplicates.all_pairs rt (PyDict r) d pairs else Ok false).
  { intros pairs. induction mapping as [|[s t] mapping IH]; csimpl.
    - done.
    - rewrite (bool_decide_ext _ _ (record_matches_cons rt s t mapping r d)),
        bool_decide_and.
      unfold field_equal at 1. cbn [fst snd].
      destruct (String.eqb_spec (py_str (repr_container rt) (dict_get r s))
                  (py_str (repr_container rt) (dict_get d t))) as [Heq | Hne].
      + by rewrite (bool_decide_eq_true_2 _ Heq), IH.
      + by rewrite (bool_decide_eq_false_2 _ Hne). }
  assert (TrinoCheckDuplicates.all_match rt (PyDict r) d
            (PyDict ((prod_map id PyStr <$> mapping) ++ (sourceField, target) :: rest))
    = (if bool_decide (record_matches rt mapping r d)
       then match target with
            | PyList _ | PyDict _ => Raise (TypeError_unhashable target)
            | _ =>
                if bool_decide (py_str (repr_container rt) (dict_get r sourceField) = "None")
                then TrinoCheckDuplicates.all_pairs rt (PyDict r) d rest
                else Ok false
            end
       else Ok false)) as H.
  { unfold TrinoCheckDuplicates.all_match. csimpl. rewrite Hpairs.
    destruct (bool_decide (record_matches rt mapping r d)); [| done].
    destruct target; csimpl; try done;
      try (destruct (String.eqb_spec (py_str (repr_container rt) (dict_get r sourceField))
                       "None") as [Heq | Hne];
           [by rewrite (bool_decide_eq_true_2 _ Heq)
           | by rewrite (bool_decide_eq_false_2 _ Hne)]).
    by destruct (Htarget s). }
  split; exact H.
Qed.

Lemma non_string_mapping_target_witness :
  TrinoCheckDuplicates.all_match Demo.demo_runtime (PyDict Demo.record5) Demo.row5
    (PyDict ((prod_map id PyStr <$> [("id", "name")]) ++ ("id", PyList []) :: []))
  = Ok false.
Proof.
  refine (proj1 (non_string_mapping_target Demo.demo_runtime Demo.record5 Demo.row5
            [("id", "name")] "id" (PyList []) [] _)).
  discriminate.
Defined.

(** ** Loading the reference rows *)

Section Loaders.
Context (rt : Runtime).

Lemma mapM_result_length {A B} (f : A → result B) (l : list A) (k : list B) :
  mapM f l = Ok k → length k = length l.
Proof.
  revert k. induction l as [|x l IH]; intros k; csimpl.
  - by intros [= <-].
  - intros H. apply bind_Ok_inv in H as (y & _ & H).
    apply bind_Ok_inv in H as (k' & Hk' & H). injection H as <-.
    csimpl. f_equal. by apply IH.
Qed.

Lemma service_read_rows_app cursor1 cursor2 col_count rows :
  CheckDuplicates.read_rows (cursor1 ++ cursor2) col_count rows
  = rows' ← CheckDuplicates.read_rows cursor1 col_count rows;
    CheckDuplicates.read_rows cursor2 col_count rows'.
Proof.
  revert rows. induction cursor1 as [|[current|e] cursor1 IH]; intros rows; csimpl;
    [done | | done].
  destruct (mapM _ _) as [row|]; csimpl; [apply IH | done].
Qed.

Lemma service_read_rows_all_Ok currents col_count rows new_rows :
  Forall2 (row_values col_count) currents new_rows →
  CheckDuplicates.read_rows (Ok <$> currents) col_count rows = Ok (rows ++ new_rows).
Proof.
  intros H. revert rows. induction H as [|current row currents new_rows Hrow _ IH];
    intros rows; csimpl.
  - by rewrite app_nil_r.
  - unfold row_values in Hrow.
    change (@mapM result result_bind) with (@mapM result (@mbind result result_bind)) in Hrow.
    rewrite Hrow, bind_Ok, IH. by rewrite <- app_assoc.
Qed.

Lemma service_read_rows_Ok_inv cursor col_count rows out :
  CheckDuplicates.read_rows cursor col_count rows = Ok out →
  ∃ currents new_rows,
    cursor = Ok <$> currents
    ∧ Forall2 (row_values col_count) currents new_rows
    ∧ out = rows ++ new_rows.
Proof.
  revert rows. induction cursor as [|[current|e] cursor IH]; intros rows; csimpl.
  - intros [= <-]. exists [], []. by rewrite app_nil_r.
  - intros H. apply bind_Ok_inv in H as (row & Hrow & H).
    apply IH in H as (currents & new_rows & -> & Hall & ->).
    exists (current :: currents), (row :: new_rows).
    split; [done |]. split; [by constructor |]. by rewrite <- app_assoc.
  - done.
Qed.

End Loaders.

(** X13. Reading a result set succeeds exactly when its meta data, every
    column label, every step of the cursor, every object of every row and
    the construction of the data frame succeed; the data frame is then
    built from the rows in cursor order and the labels in column order,
    columns being numbered from [1], and there are as many labels, and as
    many objects in every row, as the column count says. *)
Theorem result_set_is_read_in_order (rt : Runtime) rs :
  (∀ df,
     CheckDuplicates.read_result_set rt rs = Ok df ↔
     ∃ meta col_count columns currents rows,
       getMetaData rs = Ok meta
       ∧ getColumnCount meta = Ok col_count
       ∧ column_labels meta col_count columns
       ∧ rs_cursor rs = Ok <$> currents
       ∧ Forall2 (row_values col_count) currents rows
       ∧ new_DataFrame rt rows columns = Ok df)
  ∧ (∀ meta col_count columns currents rows,
       column_labels meta col_count columns →
       Forall2 (row_values col_count) currents rows →
       length columns = col_count
       ∧ length rows = length currents
       ∧ Forall (λ row, length row = col_count) rows).
Proof.
  split.
  - intros df. unfold CheckDuplicates.read_result_set. split.
    + intros H.
      apply bind_Ok_inv in H as (meta & Hmeta & H).
      apply bind_Ok_inv in H as (col_count & Hcount & H).
      apply bind_Ok_inv in H as (columns & Hcolumns & H).
      apply bind_Ok_inv in H as (rows & Hrows & H).
      apply service_read_rows_Ok_inv in Hrows as (currents & new_rows & Hcursor & Hall & ->).
      by exists meta, col_count, columns, currents, new_rows.
    + intros (meta & col_count & columns & currents & rows
              & Hmeta & Hcount & Hcolumns & Hcursor & Hall & Hdf).
      unfold column_labels in Hcolumns.
      rewrite Hmeta, bind_Ok, Hcount, bind_Ok, Hcolumns, bind_Ok, Hcursor.
      by rewrite (service_read_rows_all_Ok _ _ _ _ Hall), bind_Ok.
  - intros meta col_count columns currents rows Hcolumns Hall.
    split; [| split].
    + apply mapM_result_length in Hcolumns. by rewrite Hcolumns, length_seq.
    + symmetry. by eapply Forall2_length.
    + induction Hall as [|current row currents rows Hrow _ IH]; constructor; [| done].
      apply mapM_result_length in Hrow. by rewrite Hrow, length_seq.
Qed.

Lemma result_set_is_read_in_order_witness :
  CheckDuplicates.read_result_set Demo.demo_runtime
    (Demo.jdbc_result_set [Demo.row5; [("id", PyInt 7)]])
  = Ok [[("id", PyStr "5")]; [("id", PyInt 7)]]
  ∧ length [[PyStr "5"]; [PyInt 7]] = 2%nat.
Proof.
  split.
  - refine (proj2 (proj1 (result_set_is_read_in_order Demo.demo_runtime
              (Demo.jdbc_result_set [Demo.row5; [("id", PyInt 7)]])) _) _).
    exists {| getColumnCount := Ok 1%nat; getColumnLabel := λ _, Ok "id" |}, 1%nat, ["id"],
      [Demo.jdbc_row Demo.row5; Demo.jdbc_row [("id", PyInt 7)]],
      [[PyStr "5"]; [PyInt 7]].
    repeat split; try reflexivity.
    repeat constructor.
  - refine (proj1 (proj2 (proj2 (result_set_is_read_in_order Demo.demo_runtime
              (Demo.jdbc_result_set [])) 
              {| getColumnCount := Ok 1%nat; getColumnLabel := λ _, Ok "id" |} 1%nat ["id"]
              [Demo.jdbc_row Demo.row5; Demo.jdbc_row [("id", PyInt 7)]]
              [[PyStr "5"]; [PyInt 7]] _ _)));
      [reflexivity | repeat constructor].
Defined.

(** X14. Reading the rows stops at the first step of the cursor that
    raises, or at the first row one of whose objects cannot be fetched,
    with that exception; the rows read before it are dropped. *)
Theorem cursor_failure_stops_reading col_count currents read :
  Forall2 (row_values col_count) currents read →
  (∀ e rest rows,
     CheckDuplicates.read_rows ((Ok <$> currents) ++ Raise e :: rest) col_count rows
     = Raise e)
  ∧ (∀ current e rest rows,
       mapM (λ i, getObject current (i + 1)) (seq 0 col_count) = Raise e →
       CheckDuplicates.read_rows ((Ok <$> currents) ++ Ok current :: rest) col_count rows
       = Raise e).
Proof.
  intros Hall. split.
  - intros e rest rows.
    by rewrite service_read_rows_app, (service_read_rows_all_Ok _ _ _ _ Hall).
  - intros current e rest rows Hbad.
    rewrite service_read_rows_app, (service_read_rows_all_Ok _ _ _ _ Hall), bind_Ok.
    csimpl.
    change (@mapM result result_bind) with (@mapM result (@mbind result result_bind))
      in Hbad.
    by rewrite Hbad.
Qed.

Lemma cursor_failure_stops_reading_witness :
  CheckDuplicates.read_rows
    ((Ok <$> [Demo.jdbc_row Demo.row5]) ++ Raise DemoMore.close_failed :: []) 1 []
  = Raise DemoMore.close_failed.
Proof.
  refine (proj1 (cursor_failure_stops_reading 1 [Demo.jdbc_row Demo.row5] [[PyStr "5"]] _)
            DemoMore.close_failed [] []).
  repeat constructor.
Defined.

(** X15. The pooled-connection loader returns rows exactly when the
    connection, the statement, the query, the reading of the result set
    and the three [close] calls all succeed; the rows are those of the
    data frame. *)
Theorem pooled_loader_returns_iff (rt : Runtime) dbcp_service sql db_rows :
  CheckDuplicates.load_db_rows rt dbcp_service sql = Ok db_rows ↔
  ∃ conn stmt rs df,
    getConnection dbcp_service = Ok conn
    ∧ prepareStatement conn sql = Ok stmt
    ∧ executeQuery stmt = Ok rs
    ∧ CheckDuplicates.read_result_set rt rs = Ok df
    ∧ rs_close rs = Ok () ∧ stmt_close stmt = Ok () ∧ conn_close conn = Ok ()
    ∧ db_rows = to_dict_records rt df.
Proof.
  split; [apply service_load_db_rows_Ok_inv |].
  intros (conn & stmt & rs & df & Hconn & Hstmt & Hrs & Hdf & Hrc & Hsc & Hcc & ->).
  unfold CheckDuplicates.load_db_rows.
  by rewrite Hconn, bind_Ok, Hstmt, bind_Ok, Hrs, bind_Ok, Hdf, Hrc, Hsc, Hcc.
Qed.

Lemma pooled_loader_returns_iff_witness :
  CheckDuplicates.load_db_rows Demo.demo_runtime Demo.dbcp_service "SELECT id FROM t"
  = Ok [Demo.row5].
Proof.
  refine (proj2 (pooled_loader_returns_iff Demo.demo_runtime Demo.dbcp_service
            "SELECT id FROM t" [Demo.row5]) _).
  eexists _, _, (Demo.jdbc_result_set [Demo.row5]), [Demo.row5].
  repeat split; reflexivity.
Defined.

(** X16. In the pooled-connection loader an exception raised while
    closing replaces whatever happened before, the outermost [close]
    last: a failing [conn.close()] decides; failing that, a failing
    [stmt.close()]; failing that, a failing [rs.close()].  When the three
    succeed, an exception of the query is the one that is raised. *)
Theorem close_failure_replaces_outcome (rt : Runtime) dbcp_service sql conn e :
  getConnection dbcp_service = Ok conn →
  (conn_close conn = Raise e →
     CheckDuplicates.load_db_rows rt dbcp_service sql = Raise e)
  ∧ (∀ stmt,
       prepareStatement conn sql = Ok stmt →
       conn_close conn = Ok () → stmt_close stmt = Raise e →
       CheckDuplicates.load_db_rows rt dbcp_service sql = Raise e)
  ∧ (∀ stmt rs,
       prepareStatement conn sql = Ok stmt → executeQuery stmt = Ok rs →
       conn_close conn = Ok () → stmt_close stmt = Ok () → rs_close rs = Raise e →
       CheckDuplicates.load_db_rows rt dbcp_service sql = Raise e)
  ∧ (∀ stmt,
       prepareStatement conn sql = Ok stmt → executeQuery stmt = Raise e →
       conn_close conn = Ok () → stmt_close stmt = Ok () →
       CheckDuplicates.load_db_rows rt dbcp_service sql = Raise e).
Proof.
  intros Hconn. unfold CheckDuplicates.load_db_rows. rewrite Hconn, bind_Ok.
  split; [| split; [| split]].
  - intros Hcc. by rewrite Hcc.
  - intros stmt Hstmt Hcc Hsc. by rewrite Hstmt, bind_Ok, Hcc, Hsc.
  - intros stmt rs Hstmt Hrs Hcc Hsc Hrc.
    by rewrite Hstmt, bind_Ok, Hrs, bind_Ok, Hcc, Hsc, Hrc.
  - intros stmt Hstmt Hrs Hcc Hsc. by rewrite Hstmt, bind_Ok, Hrs, Hcc, Hsc.
Qed.

(** The query fails and closing the connection fails: the latter is what
    the loader raises. *)
Lemma close_failure_replaces_outcome_witness :
  CheckDuplicates.load_db_rows Demo.demo_runtime
    (DemoMore.dbcp_service_closing (Ok ()) (Ok ()) (Raise DemoMore.close_failed))
    "SELECT broken"
  = Raise DemoMore.close_failed.
Proof.
  refine (proj1 (close_failure_replaces_outcome Demo.demo_runtime
            (DemoMore.dbcp_service_closing (Ok ()) (Ok ()) (Raise DemoMore.close_failed))
            "SELECT broken" _ DemoMore.close_failed _) _);
    reflexivity.
Defined.

(** X17. The Trino loader returns rows exactly when the engine, the
    connection, the query and the exit of the [with] block all succeed;
    an exception raised on leaving the block replaces the outcome of the
    query. *)
Theorem trino_loader_returns_iff (rt : Runtime) url sql :
  (∀ db_rows,
     TrinoCheckDuplicates.load_db_rows rt url sql = Ok db_rows ↔
     ∃ engine connection df,
       create_engine rt url = Ok engine
       ∧ engine_connect rt engine = Ok connection
       ∧ read_sql_query rt sql connection = Ok df
       ∧ connection_exit rt connection = Ok ()
       ∧ db_rows = to_dict_records rt df)
  ∧ (∀ engine connection e,
       create_engine rt url = Ok engine →
       engine_connect rt engine = Ok connection →
       connection_exit rt connection = Raise e →
       TrinoCheckDuplicates.load_db_rows rt url sql = Raise e).
Proof.
  split.
  - intros db_rows. split; [apply trino_load_db_rows_Ok_inv |].
    intros (engine & connection & df & Hengine & Hconnection & Hdf & Hexit & ->).
    unfold TrinoCheckDuplicates.load_db_rows.
    by rewrite Hengine, bind_Ok, Hconnection, bind_Ok, Hdf, Hexit.
  - intros engine connection e Hengine Hconnection Hexit.
    unfold TrinoCheckDuplicates.load_db_rows.
    by rewrite Hengine, bind_Ok, Hconnection, bind_Ok, Hexit.
Qed.

Lemma trino_loader_returns_iff_witness :
  TrinoCheckDuplicates.load_db_rows
    (DemoMore.with_connection_exit (Raise DemoMore.close_failed))
    (TrinoCheckDuplicates.trino_url (Demo.trino_context "SELECT id FROM t" "{}")
       (Demo.flowfile_of "[]"))
    "SELECT id FROM t"
  = Raise DemoMore.close_failed.
Proof.
  refine (proj2 (trino_loader_returns_iff
            (DemoMore.with_connection_exit (Raise DemoMore.close_failed))
            (TrinoCheckDuplicates.trino_url (Demo.trino_context "SELECT id FROM t" "{}")
               (Demo.flowfile_of "[]"))
            "SELECT id FROM t") () () DemoMore.close_failed _ _ _);
    reflexivity.
Defined.

(** ** Dictionaries *)

Section Dicts.

Lemma dict_get_Some kvs k v : dict_lookup k kvs = Some v → dict_get kvs k = v.
Proof. unfold dict_get. by intros ->. Qed.

Lemma dict_lookup_set_eq kvs k v : dict_lookup k (dict_set kvs k v) = Some v.
Proof.
  induction kvs as [|[k' v'] kvs IH]; csimpl.
  - by rewrite String.eqb_refl.
  - destruct (String.eqb_spec k k') as [-> | Hne]; csimpl.
    + by rewrite String.eqb_refl.
    + by rewrite (proj2 (String.eqb_neq k k') Hne).
Qed.

Lemma dict_lookup_set_ne kvs k k' v :
  k ≠ k' → dict_lookup k' (dict_set kvs k v) = dict_lookup k' kvs.
Proof.
  intros Hne. induction kvs as [|[k0 v0] kvs IH]; csimpl.
  - by rewrite (proj2 (String.eqb_neq k' k)).
  - destruct (String.eqb_spec k k0) as [-> | Hne0]; csimpl.
    + by rewrite !(proj2 (String.eqb_neq k' k0)).
    + by rewrite IH.
Qed.

Lemma dict_set_keys kvs k v :
  (dict_set kvs k v).*1
  = if bool_decide (is_Some (dict_lookup k kvs)) then kvs.*1 else kvs.*1 ++ [k].
Proof.
  induction kvs as [|[k' v'] kvs IH]; csimpl.
  - done.
  - destruct (String.eqb_spec k k') as [-> | Hne]; csimpl.
    + done.
    + rewrite IH. by destruct (bool_decide _).
Qed.

Lemma dict_lookup_None_keys kvs k : dict_lookup k kvs = None ↔ k ∉ kvs.*1.
Proof.
  induction kvs as [|[k' v'] kvs IH]; csimpl.
  - split; [intros _; apply not_elem_of_nil | done].
  - rewrite not_elem_of_cons.
    destruct (String.eqb_spec k k') as [-> | Hne]; [split; [done | tauto] |].
    rewrite IH. tauto.
Qed.

(** [d.update(other)] gives the values of [other], and those of [d] for
    the keys that [other] lacks. *)
Lemma dict_lookup_update kvs other k :
  NoDup other.*1 →
  dict_lookup k (dict_update kvs other)
  = match dict_lookup k other with
    | Some v => Some v
    | None => dict_lookup k kvs
    end.
Proof.
  unfold dict_update. revert kvs.
  induction other as [|[k' v'] other IH]; intros kvs Hnodup; [done |].
  rewrite fmap_cons in Hnodup. apply NoDup_cons in Hnodup as [Hnotin Hnodup].
  cbn [fst] in Hnotin. csimpl. rewrite (IH _ Hnodup).
  destruct (String.eqb_spec k k') as [-> | Hne].
  - apply dict_lookup_None_keys in Hnotin. by rewrite Hnotin, dict_lookup_set_eq.
  - by rewrite dict_lookup_set_ne by done.
Qed.

End Dicts.

(** ** The source coordinate system *)

Section SourceCrs.
Context (rt : Runtime).

Lemma resolve_source_crs_configured context flowfile data c s :
  GeoJSONTransform.SOURCE_CRS context (getAttributes flowfile) = Some (String c s) →
  GeoJSONTransform.resolve_source_crs rt context flowfile data
  = Ok (if str_contains "EPSG" (str_upper rt (String c s))
        then String c s else "EPSG:4326").
Proof. intros H. unfold GeoJSONTransform.resolve_source_crs. by rewrite H. Qed.

(** With no configured value the name comes from the document. *)
Lemma resolve_source_crs_unconfigured context flowfile data :
  GeoJSONTransform.SOURCE_CRS context (getAttributes flowfile) = None
  ∨ GeoJSONTransform.SOURCE_CRS context (getAttributes flowfile) = Some "" →
  GeoJSONTransform.resolve_source_crs rt context flowfile data
  = (source_crs ←
       (crs ← py_get_default data "crs" (PyDict []);
        props ← py_get_default crs "properties" (PyDict []);
        py_get_default props "name" (PyStr "EPSG:4326"));
     upper ← GeoJSONTransform.py_upper rt source_crs;
     match source_crs with
     | PyStr s => Ok (if str_contains "EPSG" upper then s else "EPSG:4326")
     | _ => Raise (AttributeError source_crs "upper")
     end).
Proof.
  intros [H | H]; unfold GeoJSONTransform.resolve_source_crs; by rewrite H.
Qed.

End SourceCrs.

(** X18. Where the source coordinate system comes from: a configured,
    non-empty value decides and the document is not looked at, so with the
    property at its default the result is [EPSG:4326] for every document;
    with no value configured, a document without a [crs] member gives
    [EPSG:4326] and a document with [crs.properties.name] gives that name;
    a value in whose upper-case form [EPSG] does not occur is replaced by
    [EPSG:4326]. *)
Theorem source_crs_resolution (rt : Runtime) context flowfile :
  (∀ data c s,
     GeoJSONTransform.SOURCE_CRS context (getAttributes flowfile) = Some (String c s) →
     GeoJSONTransform.resolve_source_crs rt context flowfile data
     = Ok (if str_contains "EPSG" (str_upper rt (String c s))
           then String c s else "EPSG:4326"))
  ∧ (∀ data,
       GeoJSONTransform.SOURCE_CRS context (getAttributes flowfile)
         = default_value GeoJSONTransform.Descriptor.SOURCE_CRS →
       GeoJSONTransform.resolve_source_crs rt context flowfile data = Ok "EPSG:4326")
  ∧ (∀ kvs,
       GeoJSONTransform.SOURCE_CRS context (getAttributes flowfile) = None
       ∨ GeoJSONTransform.SOURCE_CRS context (getAttributes flowfile) = Some "" →
       dict_lookup "crs" kvs = None →
       GeoJSONTransform.resolve_source_crs rt context flowfile (PyDict kvs)
       = Ok "EPSG:4326")
  ∧ (∀ kvs crs props crs_name,
       GeoJSONTransform.SOURCE_CRS context (getAttributes flowfile) = None
       ∨ GeoJSONTransform.SOURCE_CRS context (getAttributes flowfile) = Some "" →
       dict_lookup "crs" kvs = Some (PyDict crs) →
       dict_lookup "properties" crs = Some (PyDict props) →
       dict_lookup "name" props = Some (PyStr crs_name) →
       GeoJSONTransform.resolve_source_crs rt context flowfile (PyDict kvs)
       = Ok (if str_contains "EPSG" (str_upper rt crs_name)
             then crs_name else "EPSG:4326")).
Proof.
  split; [| split; [| split]].
  - intros data c s. apply resolve_source_crs_configured.
  - intros data H. cbn [default_value GeoJSONTransform.Descriptor.SOURCE_CRS] in H.
    rewrite (resolve_source_crs_configured rt _ _ data _ _ H).
    by destruct (str_contains _ _).
  - intros kvs H Hcrs. rewrite (resolve_source_crs_unconfigured rt _ _ _ H).
    cbn [py_get_default]. rewrite Hcrs. csimpl.
    by destruct (str_contains _ _).
  - intros kvs crs props crs_name H Hcrs Hprops Hname.
    rewrite (resolve_source_crs_unconfigured rt _ _ _ H).
    cbn [py_get_default]. rewrite Hcrs. csimpl. rewrite Hprops. csimpl.
    by rewrite Hname.
Qed.

Lemma source_crs_resolution_witness :
  GeoJSONTransform.resolve_source_crs Demo.demo_runtime Demo.geojson_context
    (Demo.flowfile_of "{}")
    (PyDict [("crs", PyDict [("properties", PyDict [("name", PyStr "epsg:25832")])])])
  = Ok "epsg:25832".
Proof.
  refine (proj2 (proj2 (proj2 (source_crs_resolution Demo.demo_runtime
            Demo.geojson_context (Demo.flowfile_of "{}"))))
            [("crs", PyDict [("properties", PyDict [("name", PyStr "epsg:25832")])])]
            [("properties", PyDict [("name", PyStr "epsg:25832")])]
            [("name", PyStr "epsg:25832")] "epsg:25832" _ _ _ _);
    [left |..]; reflexivity.
Defined.

(** X19. A source coordinate system that has been resolved is either
    [EPSG:4326] or a name in whose upper-case form [EPSG] occurs. *)
Theorem resolved_source_crs_names_EPSG (rt : Runtime) context flowfile data source_crs :
  GeoJSONTransform.resolve_source_crs rt context flowfile data = Ok source_crs →
  source_crs = "EPSG:4326" ∨ str_contains "EPSG" (str_upper rt source_crs) = true.
Proof.
  unfold GeoJSONTransform.resolve_source_crs. intros H.
  apply bind_Ok_inv in H as (v & _ & H).
  apply bind_Ok_inv in H as (upper & Hupper & H).
  destruct v; try discriminate. cbn [GeoJSONTransform.py_upper] in Hupper.
  injection Hupper as <-.
  destruct (str_contains "EPSG" (str_upper rt s)) eqn:Hc; injection H as <-; auto.
Qed.

Lemma resolved_source_crs_names_EPSG_witness :
  "EPSG:4326" = "EPSG:4326"
  ∨ str_contains "EPSG" (str_upper Demo.demo_runtime "EPSG:4326") = true.
Proof.
  refine (resolved_source_crs_names_EPSG Demo.demo_runtime Demo.geojson_context
            (Demo.flowfile_of "{}") (PyDict [("crs", PyDict [])]) "EPSG:4326" _).
  reflexivity.
Defined.

(** X20. With no source coordinate system configured, a document whose
    [crs] member is not an object (null, for instance), or whose
    [crs.properties] is not an object, or whose [crs.properties.name] is
    not a string, cannot be resolved: [AttributeError] is raised, and a
    feature collection with such a [crs] is routed to [failure]. *)
Theorem malformed_crs_member (rt : Runtime) context flowfile :
  GeoJSONTransform.SOURCE_CRS context (getAttributes flowfile) = None
  ∨ GeoJSONTransform.SOURCE_CRS context (getAttributes flowfile) = Some "" →
  (∀ kvs v,
     dict_lookup "crs" kvs = Some v → is_dict v = false →
     GeoJSONTransform.resolve_source_crs rt context flowfile (PyDict kvs)
     = Raise (AttributeError v "get"))
  ∧ (∀ kvs crs v,
       dict_lookup "crs" kvs = Some (PyDict crs) →
       dict_lookup "properties" crs = Some v → is_dict v = false →
       GeoJSONTransform.resolve_source_crs rt context flowfile (PyDict kvs)
       = Raise (AttributeError v "get"))
  ∧ (∀ kvs crs props v,
       dict_lookup "crs" kvs = Some (PyDict crs) →
       dict_lookup "properties" crs = Some (PyDict props) →
       dict_lookup "name" props = Some v → (∀ s, v ≠ PyStr s) →
       GeoJSONTransform.resolve_source_crs rt context flowfile (PyDict kvs)
       = Raise (AttributeError v "upper"))
  ∧ (∀ contents kvs v,
       decode_utf8 rt (getContentsAsBytes flowfile) = Ok contents →
       json_loads rt contents = Ok (PyDict kvs) →
       dict_lookup "type" kvs = Some (PyStr "FeatureCollection") →
       dict_lookup "crs" kvs = Some v → is_dict v = false →
       GeoJSONTransform.transform rt context flowfile
       = ([GeoJSONTransform.error_details rt (AttributeError v "get")],
          Ok {| relationship := "failure";
                contents := GeoJSONTransform.error_details rt (AttributeError v "get") |})).
Proof.
  intros Hsource.
  assert (Hcrs : ∀ kvs v,
    dict_lookup "crs" kvs = Some v → is_dict v = false →
    GeoJSONTransform.resolve_source_crs rt context flowfile (PyDict kvs)
    = Raise (AttributeError v "get")).
  { intros kvs v Hv Hdict. rewrite (resolve_source_crs_unconfigured rt _ _ _ Hsource).
    cbn [py_get_default]. rewrite Hv. csimpl. by destruct v. }
  split; [exact Hcrs |]. split; [| split].
  - intros kvs crs v Hv Hprops Hdict.
    rewrite (resolve_source_crs_unconfigured rt _ _ _ Hsource).
    cbn [py_get_default]. rewrite Hv. csimpl. rewrite Hprops. csimpl. by destruct v.
  - intros kvs crs props v Hv Hprops Hname Hstr.
    rewrite (resolve_source_crs_unconfigured rt _ _ _ Hsource).
    cbn [py_get_default]. rewrite Hv. csimpl. rewrite Hprops. csimpl. rewrite Hname. csimpl.
    destruct v; try done. by destruct (Hstr s).
  - intros contents kvs v Hd Hl Htype Hv Hdict.
    unfold GeoJSONTransform.transform, GeoJSONTransform.transform_body.
    rewrite Hd, bind_Ok, Hl, bind_Ok. cbn [py_get]. rewrite bind_Ok.
    rewrite (dict_get_Some _ _ _ Htype).
    change (py_eq_str (PyStr "FeatureCollection") "FeatureCollection") with true.
    cbn [py_get_default]. rewrite bind_Ok.
    by rewrite (Hcrs kvs v Hv Hdict).
Qed.

Lemma malformed_crs_member_witness :
  GeoJSONTransform.resolve_source_crs Demo.demo_runtime Demo.geojson_context
    (Demo.flowfile_of "{}") (PyDict [("crs", PyNone)])
  = Raise (AttributeError PyNone "get").
Proof.
  refine (proj1 (malformed_crs_member Demo.demo_runtime Demo.geojson_context
            (Demo.flowfile_of "{}") _) [("crs", PyNone)] PyNone _ _);
    [left |..]; reflexivity.
Defined.

(** ** Feature collections *)

(** X21. Flattening the features of a collection, when it succeeds, adds
    one object for each feature that is a JSON object with a [geometry]
    member, in order, and none for the others, which are skipped without a
    trace; every object added has a [wkt] member that is a string. *)
Theorem flattened_features (rt : Runtime) features source_crs target_crs flattened out :
  GeoJSONTransform.flatten_features rt features source_crs target_crs flattened = Ok out →
  ∃ new,
    out = flattened ++ new
    ∧ Forall has_wkt new
    ∧ length new = length (filter (λ feature, has_key "geometry" feature) features).
Proof.
  revert flattened. induction features as [|feature features IH]; intros flattened H.
  - injection H as <-. exists []. by rewrite app_nil_r.
  - cbn [GeoJSONTransform.flatten_features] in H.
    apply bind_Ok_inv in H as ([] & Hhas & H).
    + apply bind_Ok_inv in H as (geometry & Hgeometry & H).
      apply bind_Ok_inv in H as (geom & _ & H).
      apply bind_Ok_inv in H as (geom' & _ & H).
      apply bind_Ok_inv in H as (geometry' & _ & H).
      apply bind_Ok_inv in H as (has_properties & _ & H).
      apply bind_Ok_inv in H as (flat_obj & _ & H).
      apply bind_Ok_inv in H as (wkt & _ & H).
      apply IH in H as (new & -> & Hall & Hlen).
      exists (PyDict (dict_set flat_obj "wkt" (PyStr wkt)) :: new).
      split; [by rewrite <- app_assoc |]. split.
      * constructor; [| done]. eexists _, wkt. split; [done |]. apply dict_lookup_set_eq.
      * rewrite filter_cons_True; [csimpl; by rewrite Hlen |].
        destruct feature; try discriminate. cbn [py_contains] in Hhas.
        injection Hhas as Hhas. cbn [has_key]. by rewrite Hhas.
    + apply IH in H as (new & -> & Hall & Hlen).
      exists new. split; [done |]. split; [done |].
      rewrite filter_cons_False; [done |].
      destruct feature; cbn [has_key py_contains] in *; try (by intros []).
      injection Hhas as Hhas. rewrite Hhas. by intros [].
Qed.

Lemma flattened_features_witness :
  ∃ new,
    [PyDict [("geometry", PyDict []); ("wkt", PyStr "POINT (0 0)")]] = [] ++ new
    ∧ Forall has_wkt new
    ∧ length new
      = length (filter (λ feature, has_key "geometry" feature)
                  [PyDict [("id", PyInt 1)]; PyStr "id"; PyDict [("geometry", PyDict [])]]).
Proof.
  refine (flattened_features Demo.demo_runtime
            [PyDict [("id", PyInt 1)]; PyStr "id"; PyDict [("geometry", PyDict [])]]
            "EPSG:4326" "EPSG:25832" []
            [PyDict [("geometry", PyDict []); ("wkt", PyStr "POINT (0 0)")]] _).
  vm_compute. reflexivity.
Defined.

(** X22. The members of a flattened feature: [wkt] is the text computed
    for its geometry, whatever the feature called [wkt] itself; every
    other member is the property of that name when the feature has one,
    so a property named [geometry] takes the place of the geometry;
    otherwise [geometry] is the geometry of the feature, and there is no
    other member. *)
Theorem flattened_feature_members (rt : Runtime)
    fkvs geometry geom geom' wkt rest source_crs target_crs flattened :
  dict_lookup "geometry" fkvs = Some geometry →
  shape rt geometry = Ok geom →
  GeoJSONTransform.reproject rt source_crs target_crs geom = Ok geom' →
  wkt_dumps rt geom' = Ok wkt →
  (dict_lookup "properties" fkvs = None →
     GeoJSONTransform.flatten_features rt (PyDict fkvs :: rest) source_crs target_crs
       flattened
     = GeoJSONTransform.flatten_features rt rest source_crs target_crs
         (flattened ++ [PyDict [("geometry", geometry); ("wkt", PyStr wkt)]]))
  ∧ (∀ props,
       dict_lookup "properties" fkvs = Some (PyDict props) → NoDup props.*1 →
       ∃ flat_obj,
         GeoJSONTransform.flatten_features rt (PyDict fkvs :: rest) source_crs target_crs
           flattened
         = GeoJSONTransform.flatten_features rt rest source_crs target_crs
             (flattened ++ [PyDict flat_obj])
         ∧ ∀ k, dict_lookup k flat_obj
                = if String.eqb k "wkt" then Some (PyStr wkt)
                  else match dict_lookup k props with
                       | Some v => Some v
                       | None => if String.eqb k "geometry" then Some geometry else None
                       end).
Proof.
  intros Hgeometry Hshape Hreproject Hwkt. split.
  - intros Hprops. cbn [GeoJSONTransform.flatten_features py_contains py_getitem].
    rewrite Hgeometry, Hprops. csimpl. rewrite Hshape. csimpl.
    rewrite Hreproject. csimpl. by rewrite Hwkt.
  - intros props Hprops Hnodup.
    exists (dict_set (dict_update [("geometry", geometry)] props) "wkt" (PyStr wkt)).
    split.
    + cbn [GeoJSONTransform.flatten_features py_contains py_getitem].
      rewrite Hgeometry, Hprops. csimpl. rewrite Hshape. csimpl.
      rewrite Hreproject. csimpl. by rewrite Hwkt.
    + intros k. destruct (String.eqb_spec k "wkt") as [-> | Hne].
      * apply dict_lookup_set_eq.
      * rewrite dict_lookup_set_ne by done.
        rewrite dict_lookup_update by done.
        destruct (dict_lookup k props); [done |]. cbn [dict_lookup].
        by destruct (k =? "geometry")%string.
Qed.

(** A feature whose properties are themselves called [geometry] and
    [wkt]. *)
Lemma flattened_feature_members_witness :
  ∃ flat_obj,
    GeoJSONTransform.flatten_features Demo.demo_runtime
      (PyDict [("geometry", PyDict []);
               ("properties", PyDict [("geometry", PyStr "x"); ("wkt", PyStr "y")])] :: [])
      "EPSG:4326" "EPSG:25832" []
    = GeoJSONTransform.flatten_features Demo.demo_runtime [] "EPSG:4326" "EPSG:25832"
        ([] ++ [PyDict flat_obj])
    ∧ ∀ k, dict_lookup k flat_obj
           = if String.eqb k "wkt" then Some (PyStr "POINT (0 0)")
             else match dict_lookup k [("geometry", PyStr "x"); ("wkt", PyStr "y")] with
                  | Some v => Some v
                  | None => if String.eqb k "geometry" then Some (PyDict []) else None
                  end.
Proof.
  assert (NoDup ([("geometry", PyStr "x"); ("wkt", PyStr "y")].*1)) as Hnodup.
  { apply (bool_decide_eq_true_1 (NoDup (["geometry"; "wkt"]))). vm_compute. reflexivity. }
  exact (proj2 (flattened_feature_members Demo.demo_runtime
           [("geometry", PyDict []);
            ("properties", PyDict [("geometry", PyStr "x"); ("wkt", PyStr "y")])]
           (PyDict []) (PyDict []) (PyDict []) "POINT (0 0)" []
           "EPSG:4326" "EPSG:25832" []
           eq_refl eq_refl eq_refl eq_refl)
           [("geometry", PyStr "x"); ("wkt", PyStr "y")] eq_refl Hnodup).
Defined.

(** X23. A feature collection read with a configured source coordinate
    system: without a [features] member, or with an empty one, the result
    is the empty array on [success]; with a [features] member that cannot
    be iterated (null, a number, a boolean) the result is on [failure]. *)
Theorem feature_collection_without_features (rt : Runtime)
    context flowfile contents kvs c s :
  decode_utf8 rt (getContentsAsBytes flowfile) = Ok contents →
  json_loads rt contents = Ok (PyDict kvs) →
  dict_lookup "type" kvs = Some (PyStr "FeatureCollection") →
  GeoJSONTransform.SOURCE_CRS context (getAttributes flowfile) = Some (String c s) →
  (dict_lookup "features" kvs = None ∨ dict_lookup "features" kvs = Some (PyList []) →
     GeoJSONTransform.transform rt context flowfile
     = ([], Ok {| relationship := "success";
                  contents := json_dumps_unicode rt (PyList []) |}))
  ∧ (∀ features,
       dict_lookup "features" kvs = Some features →
       py_iter features = Raise (TypeError_not_iterable features) →
       GeoJSONTransform.transform rt context flowfile
       = ([GeoJSONTransform.error_details rt (TypeError_not_iterable features)],
          Ok {| relationship := "failure";
                contents :=
                  GeoJSONTransform.error_details rt (TypeError_not_iterable features) |})).
Proof.
  intros Hd Hl Htype Hsource.
  assert (Hbody : GeoJSONTransform.transform_body rt context flowfile
    = (features ← py_get_default (PyDict kvs) "features" (PyList []);
       features ← py_iter features;
       flattened ← GeoJSONTransform.flatten_features rt features
                     (if str_contains "EPSG" (str_upper rt (String c s))
                      then String c s else "EPSG:4326")
                     (GeoJSONTransform.TARGET_CRS context (getAttributes flowfile)) [];
       mret (json_dumps_unicode rt (PyList flattened)))).
  { unfold GeoJSONTransform.transform_body.
    rewrite Hd, bind_Ok, Hl, bind_Ok. cbn [py_get]. rewrite bind_Ok.
    rewrite (dict_get_Some _ _ _ Htype).
    change (py_eq_str (PyStr "FeatureCollection") "FeatureCollection") with true.
    cbn [py_get_default]. rewrite !bind_Ok.
    by rewrite (resolve_source_crs_configured rt _ _ _ _ _ Hsource), bind_Ok. }
  unfold GeoJSONTransform.transform. rewrite Hbody. cbn [py_get_default]. split.
  - by intros [-> | ->].
  - intros features -> Hiter. csimpl. by rewrite Hiter.
Qed.

Lemma feature_collection_without_features_witness :
  GeoJSONTransform.transform DemoMore.runtime DemoMore.geojson_configured
    (Demo.flowfile_of DemoMore.collection_text)
  = ([], Ok {| relationship := "success";
               contents := json_dumps_unicode DemoMore.runtime (PyList []) |}).
Proof.
  refine (proj1 (feature_collection_without_features DemoMore.runtime
            DemoMore.geojson_configured (Demo.flowfile_of DemoMore.collection_text)
            DemoMore.collection_text [("type", PyStr "FeatureCollection")]
            (Ascii.ascii_of_nat 69) "PSG:4326" _ _ _ _) _);
    [vm_compute; reflexivity .. | left; reflexivity].
Defined.

(** X24. A document that is not a feature collection, when every step
    succeeds, is sent to [success] as the same object with its [wkt]
    member set to the text of the geometry: the geometry is the [geometry]
    member when there is one and the whole object otherwise, every other
    member keeps its value, and the members keep their order, [wkt] coming
    last when it is new. *)
Theorem single_geometry_gets_wkt (rt : Runtime)
    context flowfile contents kvs geom source_crs geom' wkt :
  decode_utf8 rt (getContentsAsBytes flowfile) = Ok contents →
  json_loads rt contents = Ok (PyDict kvs) →
  py_eq_str (dict_get kvs "type") "FeatureCollection" = false →
  shape rt (default (PyDict kvs) (dict_lookup "geometry" kvs)) = Ok geom →
  GeoJSONTransform.resolve_source_crs rt context flowfile (PyDict kvs) = Ok source_crs →
  GeoJSONTransform.reproject rt source_crs
    (GeoJSONTransform.TARGET_CRS context (getAttributes flowfile)) geom = Ok geom' →
  wkt_dumps rt geom' = Ok wkt →
  GeoJSONTransform.transform rt context flowfile
  = ([], Ok {| relationship := "success";
               contents := json_dumps_unicode rt (PyDict (dict_set kvs "wkt" (PyStr wkt))) |})
  ∧ dict_lookup "wkt" (dict_set kvs "wkt" (PyStr wkt)) = Some (PyStr wkt)
  ∧ (∀ k, k ≠ "wkt" →
          dict_lookup k (dict_set kvs "wkt" (PyStr wkt)) = dict_lookup k kvs)
  ∧ (dict_set kvs "wkt" (PyStr wkt)).*1
    = (if bool_decide (is_Some (dict_lookup "wkt" kvs)) then kvs.*1 else kvs.*1 ++ ["wkt"]).
Proof.
  intros Hd Hl Htype Hshape Hsource Hreproject Hwkt.
  split; [| split; [| split]].
  - unfold GeoJSONTransform.transform, GeoJSONTransform.transform_body.
    rewrite Hd, bind_Ok, Hl, bind_Ok. cbn [py_get]. rewrite bind_Ok, Htype.
    cbn [py_get_default]. rewrite bind_Ok, Hshape, bind_Ok, Hsource, bind_Ok.
    by rewrite Hreproject, bind_Ok, Hwkt.
  - apply dict_lookup_set_eq.
  - intros k Hne. by apply dict_lookup_set_ne.
  - apply dict_set_keys.
Qed.

Lemma single_geometry_gets_wkt_witness :
  GeoJSONTransform.transform Demo.demo_runtime Demo.geojson_context
    (Demo.flowfile_of Demo.point_text)
  = ([], Ok {| relationship := "success";
               contents :=
                 json_dumps_unicode Demo.demo_runtime
                   (PyDict (dict_set [("type", PyStr "Point")] "wkt"
                              (PyStr "POINT (0 0)"))) |}).
Proof.
  refine (proj1 (single_geometry_gets_wkt Demo.demo_runtime Demo.geojson_context
            (Demo.flowfile_of Demo.point_text) Demo.point_text [("type", PyStr "Point")]
            (PyDict [("type", PyStr "Point")]) "EPSG:4326"
            (PyDict [("type", PyStr "Point")]) "POINT (0 0)" _ _ _ _ _ _ _));
    vm_compute; reflexivity.
Defined.

(** ** What is emitted *)

(** X25. When a classifier returns, it returns no result exactly when the
    batch is empty; a result carries a non-empty array whose elements are
    items of the batch, in their order. *)
Theorem no_result_iff_empty_batch (rt : Runtime) :
  (∀ context flowfile flow_data items out,
     TrinoCheckDuplicates.read_flow_data rt flowfile = Ok flow_data →
     py_iter flow_data = Ok items →
     TrinoCheckDuplicates.transform rt context flowfile = Ok out →
     (out = None ↔ items = [])
     ∧ (∀ res, out = Some res →
          ∃ emitted,
            emitted ≠ [] ∧ emitted `sublist_of` items
            ∧ contents res = json_dumps rt (PyList emitted)))
  ∧ (∀ context flowfile flow_data items out,
       CheckDuplicates.read_flow_data rt flowfile = Ok flow_data →
       py_iter flow_data = Ok items →
       CheckDuplicates.transform rt context flowfile = Ok out →
       (out = None ↔ items = [])
       ∧ (∀ res, out = Some res →
            ∃ emitted,
              emitted ≠ [] ∧ emitted `sublist_of` items
              ∧ contents res = json_dumps rt (PyList emitted))).
Proof.
  assert (Hselect : ∀ flow_data items db_rows column_mapping non_duplicates duplicates,
    py_iter flow_data = Ok items →
    TrinoCheckDuplicates.classify rt flow_data db_rows column_mapping
      = Ok (non_duplicates, duplicates) →
    (TrinoCheckDuplicates.select_result rt non_duplicates duplicates = None ↔ items = [])
    ∧ (∀ res, TrinoCheckDuplicates.select_result rt non_duplicates duplicates = Some res →
         ∃ emitted,
           emitted ≠ [] ∧ emitted `sublist_of` items
           ∧ contents res = json_dumps rt (PyList emitted))).
  { intros flow_data items db_rows column_mapping non_duplicates duplicates Hiter H.
    unfold TrinoCheckDuplicates.classify in H. rewrite Hiter, bind_Ok in H.
    apply trino_classify_items_conserve in H as (n & d & -> & -> & Hn & Hd & Hperm).
    csimpl. split.
    - destruct n as [|x n], d as [|y d]; csimpl; split; try done.
      + intros _. by apply Permutation_nil_l in Hperm.
      + intros ->. by apply Permutation_nil_r in Hperm.
      + intros ->. by apply Permutation_nil_r in Hperm.
      + intros ->. by apply Permutation_nil_r in Hperm.
    - intros res Hres. destruct n as [|x n], d as [|y d]; csimpl in Hres;
        try discriminate; injection Hres as <-.
      + by exists (y :: d).
      + by exists (x :: n).
      + by exists (x :: n). }
  split; intros context flowfile flow_data items out Hflow Hiter H.
  - apply trino_transform_Ok_inv in H
      as (fd & cm & rows & nd & dd & Hflow' & _ & _ & Hclassify & ->).
    rewrite Hflow in Hflow'. injection Hflow' as <-. by eapply Hselect.
  - apply service_transform_Ok_inv in H
      as (fd & cm & rows & nd & dd & Hflow' & _ & _ & Hclassify & ->).
    rewrite Hflow in Hflow'. injection Hflow' as <-.
    exact (Hselect _ _ _ _ _ _ Hiter Hclassify).
Qed.

Lemma no_result_iff_empty_batch_witness :
  ((None : option FlowFileTransformResult) = None ↔ ([] : list pyval) = []).
Proof.
  refine (proj1 (proj1 (no_result_iff_empty_batch Demo.demo_runtime)
            (Demo.trino_context "SELECT id FROM t" Demo.mapping_text) (Demo.flowfile_of "[]")
            (PyList []) [] None _ _ _));
    vm_compute; reflexivity.
Defined.
